(** * Eelytics API: the MQTT-to-storage bridge and its HTTP facade

    A shallow embedding of [wsgi.py].  The Flask application keeps three
    ambient objects ([app], [db], [mqtt]); here they are one explicit
    [world] record threaded through every handler by a small state and
    exception monad.  The behaviour of the Python runtime and of the
    external collaborators that the handlers call but do not implement
    (UTF-8 decoding, the JSON codec, [int()], the relational store's
    column checks) is gathered in the [Library] interface, so that every
    general statement holds whatever those collaborators answer. *)

From Stdlib Require Import ZArith List String Ascii Bool Lia.
From Stdlib Require Import Sorting.Sorted Sorting.Permutation.
From Stdlib Require Import Strings.Byte.
Import ListNotations.

Local Open Scope string_scope.
Local Open Scope Z_scope.

Set Warnings "-register-all".

(** ** Python values *)

(** A Python [float], kept as the decimal literal it was read from
    ([FDec m e] stands for the double nearest to [m * 10^e]); the handlers
    never compute with it. *)
Inductive pyfloat : Type :=
| FDec (mantissa exponent : Z)
| FInf (negative : bool)
| FNan.

(** The objects [json.loads] can build. A [dict] keeps its keys in insertion
    order; lookup takes the first binding of a key. *)
Inductive pyval : Type :=
| PyNone
| PyBool (b : bool)
| PyInt (n : Z)
| PyFloat (f : pyfloat)
| PyStr (s : string)
| PyList (l : list pyval)
| PyDict (d : list (string * pyval)).

Definition is_number (v : pyval) : bool :=
  match v with
  | PyInt _ | PyFloat _ => true
  | _ => false
  end.

(** [v == s] for a string literal [s]. *)
Definition py_eq_str (v : pyval) (s : string) : bool :=
  match v with
  | PyStr t => String.eqb t s
  | _ => false
  end.

(** [v in [s1, s2, ...]] for a list of string literals. *)
Definition py_in_strs (v : pyval) (l : list string) : bool :=
  existsb (py_eq_str v) l.

(** Truthiness of [None] or a [str] ([if db_error:]). *)
Definition truthy_opt_str (o : option string) : bool :=
  match o with
  | None => false
  | Some EmptyString => false
  | Some (String _ _) => true
  end.

Fixpoint assoc (k : string) (d : list (string * pyval)) : option pyval :=
  match d with
  | [] => None
  | (k', v) :: rest => if String.eqb k k' then Some v else assoc k rest
  end.

(** ** Exceptions *)

Inductive exn_class : Type :=
| NameError
| IndexError
| KeyError
| TypeError
| AttributeError
| ValueError
| UnicodeDecodeError
| JSONDecodeError
| HTTPException
| PendingRollbackError
| DBAPIError.

(** An exception object: its class and [str(e)]. Every class above derives
    from [Exception], so [except Exception] catches all of them. *)
Record exn : Type := mk_exn { exn_class_of : exn_class; str_exn : string }.

Definition exn_class_eqb (a b : exn_class) : bool :=
  match a, b with
  | NameError, NameError | IndexError, IndexError | KeyError, KeyError
  | TypeError, TypeError | AttributeError, AttributeError
  | ValueError, ValueError | UnicodeDecodeError, UnicodeDecodeError
  | JSONDecodeError, JSONDecodeError | HTTPException, HTTPException
  | PendingRollbackError, PendingRollbackError | DBAPIError, DBAPIError => true
  | _, _ => false
  end.

(** What a library call answers: a value, or the text of the exception it
    raises. *)
Inductive outcome (A : Type) : Type :=
| Done (a : A)
| Fails (msg : string).
Arguments Done {A} a.
Arguments Fails {A} msg.

(** ** The data model *)

(** [class WaterLevel(db.Model)]: [id] is the auto-assigned primary key,
    [tank_id] and [level_cm] are declared [nullable=False], [timestamp]
    defaults to [now()] at insertion.  An object that has not been inserted
    yet has no [id]. *)
Record WaterLevel : Type := mk_WaterLevel {
  id : option Z;
  tank_id : pyval;
  level_cm : pyval;
  timestamp : option Z
}.

(** ** The runtime and the external collaborators *)

Class Library : Type := {
  (** [bytes.decode()]: raises [UnicodeDecodeError] *)
  bytes_decode : list byte -> outcome string;
  (** [json.loads]: raises [JSONDecodeError] *)
  json_loads : string -> outcome pyval;
  (** [json.dumps] *)
  json_dumps : pyval -> string;
  (** [int(s)] on a [str]: raises [ValueError] *)
  py_int : string -> outcome Z;
  (** [datetime.isoformat()] *)
  isoformat : Z -> string;
  (** the store's verdict on the INSERT of an object: [None] when the row is
      accepted, the driver's exception class and text when it is refused *)
  insert_error : WaterLevel -> option (string * string);
  (** [nullable=False] on [tank_id] and [level_cm] *)
  insert_error_null : forall o,
    tank_id o = PyNone \/ level_cm o = PyNone -> insert_error o <> None;
  (** whether the refusal of this INSERT comes after the store has drawn a
      key for it from the [id] sequence; a key drawn is not given back by a
      rollback *)
  refusal_draws_key : WaterLevel -> bool;
  (** [db.Float]: what the column holds, and gives back when read, for a
      value the store accepted: the double nearest to it *)
  float_column : pyval -> pyval;
  (** a value that is not null is not held as NULL *)
  float_column_not_null : forall v, v <> PyNone -> float_column v <> PyNone
}.

(** ** The world *)

Inductive log_line : Type :=
| LogConnected
| LogConnectFailed (rc : Z)
| LogCmd (payload topic : string)
| LogDb (tank : string) (level : pyval)
| LogError (e : exn)
| LogFailedPayload (text : string).

(** [db.session]: the objects added and not yet flushed, and whether the
    transaction is waiting for a rollback after a failed flush. *)
Record session : Type := mk_session {
  pending : list WaterLevel;
  failed : bool
}.

Definition fresh_session : session := {| pending := []; failed := false |}.

Record world : Type := mk_world {
  (** table [water_level], in insertion order *)
  rows : list WaterLevel;
  next_id : Z;
  (** the store's clock, read by [now()] *)
  now : Z;
  (** [None] when the store answers; otherwise the driver's exception class
      and text for a refused connection *)
  db_down : option (string * string);
  db_session : session;
  mqtt_connected : bool;
  subscriptions : list string;
  (** the messages handed to [mqtt.publish], oldest first *)
  published : list (string * string);
  stdout : list log_line
}.

Definition set_session (s : session) (w : world) : world :=
  {| rows := rows w; next_id := next_id w; now := now w; db_down := db_down w;
     db_session := s; mqtt_connected := mqtt_connected w;
     subscriptions := subscriptions w; published := published w;
     stdout := stdout w |}.

Definition set_store (rs : list WaterLevel) (n : Z) (w : world) : world :=
  {| rows := rs; next_id := n; now := now w; db_down := db_down w;
     db_session := db_session w; mqtt_connected := mqtt_connected w;
     subscriptions := subscriptions w; published := published w;
     stdout := stdout w |}.

(** ** A state and exception monad *)

Inductive result (A : Type) : Type :=
| Return (a : A)
| Raise (e : exn).
Arguments Return {A} a.
Arguments Raise {A} e.

(** A computation runs in a world and either returns or raises; the world
    it leaves behind is kept in both cases. *)
Definition M (A : Type) : Type := world -> result A * world.

Definition ret {A} (a : A) : M A := fun w => (Return a, w).

Definition raise {A} (c : exn_class) (msg : string) : M A :=
  fun w => (Raise (mk_exn c msg), w).

Definition bind {A B} (m : M A) (k : A -> M B) : M B :=
  fun w =>
    match m w with
    | (Return a, w') => k a w'
    | (Raise e, w') => (Raise e, w')
    end.

Notation "x <- m ;; k" := (bind m (fun x => k))
  (at level 61, m at next level, right associativity).
Notation "m ;; k" := (bind m (fun _ => k))
  (at level 61, right associativity).

(** [try: body except Exception as e: handler e] *)
Definition try_except {A} (body : M A) (handler : exn -> M A) : M A :=
  fun w =>
    match body w with
    | (Return a, w') => (Return a, w')
    | (Raise e, w') => handler e w'
    end.

(** Lifting a library call. *)
Definition call {A} (c : exn_class) (o : outcome A) : M A :=
  match o with
  | Done a => ret a
  | Fails msg => raise c msg
  end.

Definition print (l : log_line) : M unit :=
  fun w =>
    (Return tt,
     {| rows := rows w; next_id := next_id w; now := now w;
        db_down := db_down w; db_session := db_session w;
        mqtt_connected := mqtt_connected w;
        subscriptions := subscriptions w; published := published w;
        stdout := stdout w ++ [l] |}).

(** [with app.app_context(): body].  Flask-SQLAlchemy scopes [db.session]
    to the application context: the body starts with a session of its own,
    which is removed (pending objects discarded) when the context is popped,
    on every exit path. *)
Definition with_app_context {A} (body : M A) : M A :=
  fun w =>
    let outer := db_session w in
    let (r, w') := body (set_session fresh_session w) in
    (r, set_session outer w').

(** ** The relational store behind [db.session] *)

(** [str(e)] of the exception SQLAlchemy wraps around a driver error. *)
Definition db_error_text (cls msg : string) : string :=
  "(" ++ cls ++ ") " ++ msg.

Definition raise_db {A} (err : string * string) : M A :=
  raise DBAPIError (db_error_text (fst err) (snd err)).

Definition pending_rollback_text : string :=
  "This Session's transaction has been rolled back due to a previous exception during flush.".

Section Store.
Context {L : Library}.

(** The row an INSERT writes: the store assigns the key and the column
    default [now()] where the object gives none, and the [Float] column
    holds the level as a double. *)
Definition inserted (o : WaterLevel) (key clock : Z) : WaterLevel :=
  {| id := match id o with Some k => Some k | None => Some key end;
     tank_id := tank_id o;
     level_cm := float_column (level_cm o);
     timestamp := match timestamp o with Some t => Some t | None => Some clock end |}.

(** The INSERTs of one flush, in the order the objects were added; the first
    refusal aborts the whole flush.  Both answers carry the key counter the
    flush leaves behind: the keys drawn for the rows written before a
    refusal, and for the refused row when the store had drawn one, stay
    drawn. *)
Fixpoint flush (objs rs : list WaterLevel) (key clock : Z)
  : list WaterLevel * Z + string * string * Z :=
  match objs with
  | [] => inl (rs, key)
  | o :: rest =>
      match insert_error o with
      | Some err => inr (err, if refusal_draws_key o then key + 1 else key)
      | None => flush rest (rs ++ [inserted o key clock]) (key + 1) clock
      end
  end.

(** [db.session.add(obj)] *)
Definition session_add (o : WaterLevel) : M unit :=
  fun w =>
    let s := db_session w in
    (Return tt, set_session {| pending := pending s ++ [o]; failed := failed s |} w).

(** [db.session.commit()]: flushes the pending objects in one transaction.
    When the store is unreachable or refuses a row nothing is written and
    the session waits for a rollback; the keys a refused flush has drawn
    from the sequence are gone all the same. *)
Definition session_commit : M unit :=
  fun w =>
    let s := db_session w in
    if failed s then raise PendingRollbackError pending_rollback_text w
    else
      match pending s with
      | [] => (Return tt, w)
      | objs =>
          let broken := set_session {| pending := objs; failed := true |} w in
          match db_down w with
          | Some err => raise_db err broken
          | None =>
              match flush objs (rows w) (next_id w) (now w) with
              | inr (err, key) => raise_db err (set_store (rows w) key broken)
              | inl (rs, key) => (Return tt, set_store rs key (set_session fresh_session w))
              end
          end
      end.

(** [db.session.rollback()] *)
Definition session_rollback : M unit :=
  fun w => (Return tt, set_session fresh_session w).

(** [db.session.execute(db.select(1))] *)
Definition session_execute_select_1 : M unit :=
  fun w =>
    if failed (db_session w) then raise PendingRollbackError pending_rollback_text w
    else
      match db_down w with
      | Some err => raise_db err w
      | None => (Return tt, w)
      end.

(** [ORDER BY timestamp DESC]: may [a] come before [b]?  PostgreSQL puts
    NULLs first in a descending order. *)
Definition newer_eq (a b : WaterLevel) : bool :=
  match timestamp a, timestamp b with
  | None, _ => true
  | Some _, None => false
  | Some x, Some y => y <=? x
  end.

Fixpoint insert_desc (r : WaterLevel) (l : list WaterLevel) : list WaterLevel :=
  match l with
  | [] => [r]
  | h :: t => if newer_eq r h then r :: l else h :: insert_desc r t
  end.

Definition order_by_timestamp_desc (l : list WaterLevel) : list WaterLevel :=
  fold_right insert_desc [] l.

(** [db.session.execute(db.select(WaterLevel).order_by(
    WaterLevel.timestamp.desc())).scalars().all()].  The one caller runs it
    in a session of its own, so no pending object is flushed first. *)
Definition session_select_levels : M (list WaterLevel) :=
  fun w =>
    if failed (db_session w) then raise PendingRollbackError pending_rollback_text w
    else
      match db_down w with
      | Some err => raise_db err w
      | None => (Return (order_by_timestamp_desc (rows w)), w)
      end.

End Store.

(** ** The broker client behind [mqtt] *)

Definition mqtt_publish (topic payload : string) : M unit :=
  fun w =>
    (Return tt,
     {| rows := rows w; next_id := next_id w; now := now w;
        db_down := db_down w; db_session := db_session w;
        mqtt_connected := mqtt_connected w;
        subscriptions := subscriptions w;
        published := published w ++ [(topic, payload)];
        stdout := stdout w |}).

Definition mqtt_subscribe (pattern : string) : M unit :=
  fun w =>
    (Return tt,
     {| rows := rows w; next_id := next_id w; now := now w;
        db_down := db_down w; db_session := db_session w;
        mqtt_connected := mqtt_connected w;
        subscriptions := subscriptions w ++ [pattern];
        published := published w;
        stdout := stdout w |}).

(** ** Python built-ins used by the handlers *)

(** [s.split(sep)] for a one-character separator. *)
Fixpoint split (sep : ascii) (s : string) : list string :=
  match s with
  | EmptyString => [EmptyString]
  | String c rest =>
      if Ascii.eqb c sep then EmptyString :: split sep rest
      else
        match split sep rest with
        | hd :: tl => String c hd :: tl
        | [] => [String c EmptyString]
        end
  end.

(** [l[i]] on a list of strings. *)
Definition index (l : list string) (i : nat) : M string :=
  match nth_error l i with
  | Some x => ret x
  | None => raise IndexError "list index out of range"
  end.

Definition type_name (v : pyval) : string :=
  match v with
  | PyNone => "NoneType"
  | PyBool _ => "bool"
  | PyInt _ => "int"
  | PyFloat _ => "float"
  | PyStr _ => "str"
  | PyList _ => "list"
  | PyDict _ => "dict"
  end.

(** [data[key]] for a string key. *)
Definition getitem (data : pyval) (key : string) : M pyval :=
  match data with
  | PyDict d =>
      match assoc key d with
      | Some v => ret v
      | None => raise KeyError ("'" ++ key ++ "'")
      end
  | PyList _ => raise TypeError "list indices must be integers or slices, not str"
  | PyStr _ => raise TypeError "string indices must be integers, not 'str'"
  | v => raise TypeError ("'" ++ type_name v ++ "' object is not subscriptable")
  end.

(** [data.get(key)] *)
Definition py_get (data : pyval) (key : string) : M pyval :=
  match data with
  | PyDict d =>
      match assoc key d with
      | Some v => ret v
      | None => ret PyNone
      end
  | v => raise AttributeError ("'" ++ type_name v ++ "' object has no attribute 'get'")
  end.

(** Decimal digits of a natural number, as [str(n)] prints them. *)
Definition digit (n : N) : ascii := ascii_of_N (48 + n)%N.

Fixpoint digits_pos (fuel : nat) (n : N) (acc : string) : string :=
  match fuel with
  | O => acc
  | S fuel' =>
      let acc' := String (digit (N.modulo n 10)) acc in
      if N.ltb n 10 then acc' else digits_pos fuel' (N.div n 10) acc'
  end.

Definition str_N (n : N) : string :=
  digits_pos (S (N.to_nat (N.log2 n))) n EmptyString.

(** [str(n)] for an [int], as an f-string formats it. *)
Definition str_int (n : Z) : string :=
  match n with
  | Z0 => "0"
  | Zpos p => str_N (Npos p)
  | Zneg p => "-" ++ str_N (Npos p)
  end.

(** The number a string of decimal digits denotes. *)
Fixpoint value_of_digits (s : string) : N :=
  match s with
  | EmptyString => 0
  | String c r =>
      ((N_of_ascii c - 48) * 10 ^ N.of_nat (String.length r) + value_of_digits r)%N
  end.

(** [c in s] for a character. *)
Fixpoint has_char (c : ascii) (s : string) : bool :=
  match s with
  | EmptyString => false
  | String c' rest => Ascii.eqb c' c || has_char c rest
  end.

(** ** The application: [wsgi.py] *)

(** An inbound broker message, as the client hands it to [on_message]. *)
Record mqtt_message : Type := mk_message {
  topic : string;
  payload : list byte
}.

(** A Flask response: [jsonify(body), status]. *)
Record response : Type := mk_response {
  status_code : Z;
  json : pyval
}.

Definition jsonify (body : pyval) (status : Z) : response :=
  {| status_code := status; json := body |}.

(** The status of the answer, when the view returned one. *)
Definition status_code_of (run : result response * world) : option Z :=
  match fst run with
  | Return r => Some (status_code r)
  | Raise _ => None
  end.

(** An inbound HTTP request, by what [request.get_json()] does on it:
    return the parsed body, or raise (a body that is not JSON makes Werkzeug
    raise an [HTTPException]). *)
Record http_request : Type := mk_request {
  get_json : result pyval
}.

Definition request_get_json (r : http_request) : M pyval :=
  fun w => (get_json r, w).

(** The names bound at module level once [wsgi.py] has been imported:
    lines 1 to 6 import [Flask] and [jsonify] from [flask], and nothing
    else from it. *)
Definition wsgi_globals : list string :=
  [ "Flask"; "jsonify"; "SQLAlchemy"; "Mqtt"; "json"; "os"; "text";
    "app"; "DB_PASSWORD"; "db"; "mqtt"; "WaterLevel"; "send_gate_command";
    "handle_connect"; "handle_mqtt_message"; "home"; "get_levels";
    "api_command_gate" ].

(** Reading a global name inside a function body; a name that is neither a
    module global nor a built-in raises [NameError] when the line runs. *)
Definition load_global (globals : list string) (name : string) : M unit :=
  if existsb (String.eqb name) globals then ret tt
  else raise NameError ("name '" ++ name ++ "' is not defined").

(** The entry points of the application: the two broker callbacks, the
    three routes, and the publishing helper. *)
Inductive operation : Type :=
| OnConnect (rc : Z)
| OnMessage (message : mqtt_message)
| GetHome
| GetLevels
| PostCommandGate (request : http_request) (tank_id : Z)
| SendGateCommand (tank_id : Z) (command : pyval).

Section App.
Context {L : Library}.

(** [def send_gate_command(tank_id, command)] *)
Definition send_gate_command (tank_id : Z) (command : pyval) : M unit :=
  let topic := "command/gate/" ++ str_int tank_id ++ "/action" in
  let payload := json_dumps (PyDict [("action", command)]) in
  with_app_context
    (mqtt_publish topic payload ;;
     print (LogCmd payload topic)).

(** [def handle_connect(client, userdata, flags, rc)] *)
Definition handle_connect (rc : Z) : M unit :=
  if rc =? 0 then
    print LogConnected ;;
    mqtt_subscribe "sensor/tank/+/water_level" ;;
    mqtt_subscribe "sensor/gate/+/status"
  else
    print (LogConnectFailed rc).

(** The [try] suite of [handle_mqtt_message]. *)
Definition handle_mqtt_message_try (message : mqtt_message) : M unit :=
  let topic_parts := split "/" (topic message) in
  text <- call UnicodeDecodeError (bytes_decode (payload message)) ;;
  data <- call JSONDecodeError (json_loads text) ;;
  p1 <- index topic_parts 1 ;;
  is_level <- (if String.eqb p1 "tank" then
                 p3 <- index topic_parts 3 ;;
                 ret (String.eqb p3 "water_level")
               else ret false) ;;
  if is_level : bool then
    tank_id <- index topic_parts 2 ;;
    n <- call ValueError (py_int tank_id) ;;
    lv <- getitem data "level" ;;
    let level := {| id := None; tank_id := PyInt n; level_cm := lv;
                    timestamp := None |} in
    session_add level ;;
    session_commit ;;
    lv' <- getitem data "level" ;;
    print (LogDb tank_id lv')
  else ret tt.

(** The [except Exception as e] suite of [handle_mqtt_message]. *)
Definition handle_mqtt_message_except (message : mqtt_message) (e : exn) : M unit :=
  session_rollback ;;
  print (LogError e) ;;
  text <- call UnicodeDecodeError (bytes_decode (payload message)) ;;
  print (LogFailedPayload text).

(** [def handle_mqtt_message(client, userdata, message)] *)
Definition handle_mqtt_message (message : mqtt_message) : M unit :=
  with_app_context
    (try_except (handle_mqtt_message_try message)
                (handle_mqtt_message_except message)).

Definition py_opt_str (o : option string) : pyval :=
  match o with
  | Some s => PyStr s
  | None => PyNone
  end.

(** [def home()] *)
Definition home : M response :=
  checked <- with_app_context
               (try_except
                  (session_execute_select_1 ;;
                   ret ("ok", None))
                  (fun e => ret ("error", Some (str_exn e)))) ;;
  let db_status : string := fst checked in
  let db_error : option string := snd checked in
  fun w =>
    let response :=
      [ ("status", PyStr "Eelytics API is Live");
        ("mqtt_status", PyBool (mqtt_connected w));
        ("db_status", PyStr db_status) ] in
    let response :=
      if truthy_opt_str db_error
      then (response ++ [("db_error_message", py_opt_str db_error)])%list
      else response in
    (Return (jsonify (PyDict response) 200), w).

Definition py_opt_int (o : option Z) : pyval :=
  match o with
  | Some n => PyInt n
  | None => PyNone
  end.

(** One element of the list comprehension of [get_levels]. *)
Definition level_dict (level : WaterLevel) : M pyval :=
  stamp <- match timestamp level with
           | Some t => ret (isoformat t)
           | None => raise AttributeError
                       "'NoneType' object has no attribute 'isoformat'"
           end ;;
  ret (PyDict [ ("id", py_opt_int (id level));
                ("tank_id", tank_id level);
                ("level_cm", level_cm level);
                ("timestamp", PyStr stamp) ]).

Fixpoint for_each {A B} (f : A -> M B) (l : list A) : M (list B) :=
  match l with
  | [] => ret []
  | x :: rest =>
      y <- f x ;;
      ys <- for_each f rest ;;
      ret (y :: ys)
  end.

(** [def get_levels()] *)
Definition get_levels : M response :=
  with_app_context
    (levels <- session_select_levels ;;
     levels_list <- for_each level_dict levels ;;
     ret (jsonify (PyList levels_list) 200)).

(** [def api_command_gate(tank_id)], in a module whose global names are
    [globals]: the body reads [request], [send_gate_command] and [jsonify]
    from them, each at the line that uses it. *)
Definition api_command_gate_in (globals : list string)
    (request : http_request) (tank_id : Z) : M response :=
  try_except
    (load_global globals "request" ;;
     data <- request_get_json request ;;
     command <- py_get data "action" ;;
     if py_in_strs command ["open"; "close"] then
       load_global globals "send_gate_command" ;;
       send_gate_command tank_id command ;;
       load_global globals "jsonify" ;;
       ret (jsonify (PyDict [ ("status", PyStr "Command sent");
                              ("tank_id", PyInt tank_id);
                              ("action", command) ]) 200)
     else
       load_global globals "jsonify" ;;
       ret (jsonify (PyDict [("error", PyStr "Invalid command")]) 400))
    (fun e =>
       load_global globals "jsonify" ;;
       ret (jsonify (PyDict [("error", PyStr (str_exn e))]) 500)).

(** The endpoint as deployed. *)
Definition api_command_gate : http_request -> Z -> M response :=
  api_command_gate_in wsgi_globals.

(** The object [handle_mqtt_message] builds for tank [n] and level [lv]. *)
Definition new_level (n : Z) (lv : pyval) : WaterLevel :=
  {| id := None; tank_id := PyInt n; level_cm := lv; timestamp := None |}.

(** The row the store writes for it in world [w]. *)
Definition stored_level (w : world) (n : Z) (lv : pyval) : WaterLevel :=
  {| id := Some (next_id w); tank_id := PyInt n; level_cm := float_column lv;
     timestamp := Some (now w) |}.

(** [a] is listed before [b]: both carry a timestamp and [b]'s is not the
    later one. *)
Definition newest_first (a b : WaterLevel) : Prop :=
  exists x y, timestamp a = Some x /\ timestamp b = Some y /\ y <= x.

(** How one stored Reading appears in the answer of [get_levels]. *)
Definition serialized (r : WaterLevel) (d : pyval) : Prop :=
  exists t,
    timestamp r = Some t
    /\ d = PyDict [ ("id", py_opt_int (id r));
                    ("tank_id", tank_id r);
                    ("level_cm", level_cm r);
                    ("timestamp", PyStr (isoformat t)) ].

(** ** The life of a Reading *)

(** The world an operation leaves behind, whether it returned or raised. *)
Definition run (op : operation) (w : world) : world :=
  match op with
  | OnConnect rc => snd (handle_connect rc w)
  | OnMessage message => snd (handle_mqtt_message message w)
  | GetHome => snd (home w)
  | GetLevels => snd (get_levels w)
  | PostCommandGate request tank_id => snd (api_command_gate request tank_id w)
  | SendGateCommand tank_id command => snd (send_gate_command tank_id command w)
  end.

Definition run_all (ops : list operation) (w : world) : world :=
  fold_left (fun w op => run op w) ops w.

End App.

(** * A reference library

    One concrete [Library], used to run the handlers on concrete messages:
    strict UTF-8 decoding, a JSON reader and writer, [int()] on ASCII text,
    ISO 8601 formatting of a timestamp counted in microseconds since 1970,
    and a store with a 32-bit integer [tank_id] and a double precision
    [level_cm] that takes numbers and the texts of numbers.  Exception
    texts are kept short; escapes of lone surrogates are not read, [int()]
    knows the decimal digits of Unicode 14, the store reads no hexadecimal
    spelling, and a float is written back in the decimal form it was read
    in. *)

Module Reference.

Definition dquote : ascii := ascii_of_nat 34.
Definition backslash : ascii := ascii_of_nat 92.

(** *** UTF-8 *)

Definition between (lo hi : N) (b : byte) : bool :=
  (N.leb lo (Byte.to_N b) && N.leb (Byte.to_N b) hi)%bool.

Definition continuation : byte -> bool := between 128 191.

Fixpoint utf8_valid (bs : list byte) : bool :=
  match bs with
  | [] => true
  | b0 :: r0 =>
      if between 0 127 b0 then utf8_valid r0
      else if between 194 223 b0 then
        match r0 with
        | b1 :: r1 => continuation b1 && utf8_valid r1
        | _ => false
        end
      else if between 224 239 b0 then
        match r0 with
        | b1 :: b2 :: r2 =>
            (if between 224 224 b0 then between 160 191 b1
             else if between 237 237 b0 then between 128 159 b1
             else continuation b1)
            && continuation b2 && utf8_valid r2
        | _ => false
        end
      else if between 240 244 b0 then
        match r0 with
        | b1 :: b2 :: b3 :: r3 =>
            (if between 240 240 b0 then between 144 191 b1
             else if between 244 244 b0 then between 128 143 b1
             else continuation b1)
            && continuation b2 && continuation b3 && utf8_valid r3
        | _ => false
        end
      else false
  end.

Definition decode (bs : list byte) : outcome string :=
  if utf8_valid bs then Done (string_of_list_byte bs)
  else Fails "'utf-8' codec can't decode the payload: invalid byte sequence".

(** The UTF-8 bytes of a code point. *)
Definition utf8_encode (cp : N) : string :=
  let ch (n : N) := String (ascii_of_N n) EmptyString in
  (if cp <? 128 then ch cp
   else if cp <? 2048 then
     ch (192 + cp / 64) ++ ch (128 + cp mod 64)
   else if cp <? 65536 then
     ch (224 + cp / 4096) ++ ch (128 + (cp / 64) mod 64) ++ ch (128 + cp mod 64)
   else
     ch (240 + cp / 262144) ++ ch (128 + (cp / 4096) mod 64)
     ++ ch (128 + (cp / 64) mod 64) ++ ch (128 + cp mod 64))%N%string.

(** *** Characters *)

Definition code (c : ascii) : N := N_of_ascii c.

Definition is_digit (c : ascii) : bool :=
  (N.leb 48 (code c) && N.leb (code c) 57)%bool.

Definition digit_value (c : ascii) : Z := Z.of_N (code c) - 48.

Definition hex_value (c : ascii) : option N :=
  let n := code c in
  if (N.leb 48 n && N.leb n 57)%bool then Some (n - 48)%N
  else if (N.leb 97 n && N.leb n 102)%bool then Some (n - 87)%N
  else if (N.leb 65 n && N.leb n 70)%bool then Some (n - 55)%N
  else None.

Definition hex_digit (n : N) : ascii :=
  if N.ltb n 10 then ascii_of_N (48 + n)%N else ascii_of_N (87 + n)%N.

(** [\uXXXX], in lower case as [json.dumps] writes it. *)
Definition u_escape (n : N) : string :=
  String backslash
    (String "u"
       (String (hex_digit (N.modulo (N.div n 4096) 16))
          (String (hex_digit (N.modulo (N.div n 256) 16))
             (String (hex_digit (N.modulo (N.div n 16) 16))
                (String (hex_digit (N.modulo n 16)) EmptyString))))).

(** JSON whitespace. *)
Definition is_ws (c : ascii) : bool :=
  let n := code c in
  (N.eqb n 32 || N.eqb n 9 || N.eqb n 10 || N.eqb n 13)%bool.

Fixpoint skip_ws (s : string) : string :=
  match s with
  | String c r => if is_ws c then skip_ws r else s
  | EmptyString => s
  end.

Fixpoint strip_prefix (p s : string) : option string :=
  match p, s with
  | EmptyString, _ => Some s
  | String a p', String b s' => if Ascii.eqb a b then strip_prefix p' s' else None
  | String _ _, EmptyString => None
  end.

(** The leading decimal digits of [s]: their value, their number, the rest. *)
Fixpoint take_digits (s : string) (acc : Z) (count : Z) : Z * Z * string :=
  match s with
  | String c r =>
      if is_digit c then take_digits r (acc * 10 + digit_value c) (count + 1)
      else (acc, count, s)
  | EmptyString => (acc, count, s)
  end.

(** *** Reading JSON *)

(** The body of a string literal, after its opening quote: the text it
    denotes and what follows its closing quote.  [high] holds a leading
    surrogate waiting for its trailing one. *)
Fixpoint read_string (high : option N) (s : string) : option (string * string) :=
  let plain (c : ascii) (r : string) :=
    match high with
    | Some _ => None
    | None =>
        match read_string None r with
        | Some (t, rest) => Some (String c t, rest)
        | None => None
        end
    end in
  match s with
  | EmptyString => None
  | String c r =>
      if Ascii.eqb c dquote then
        match high with
        | Some _ => None
        | None => Some (EmptyString, r)
        end
      else if Ascii.eqb c backslash then
        match r with
        | String e r' =>
            if Ascii.eqb e "u" then
              match r' with
              | String h1 (String h2 (String h3 (String h4 r''))) =>
                  match hex_value h1, hex_value h2, hex_value h3, hex_value h4 with
                  | Some a, Some b, Some c', Some d =>
                      let cp := (a * 4096 + b * 256 + c' * 16 + d)%N in
                      match high with
                      | Some hi =>
                          if (N.leb 56320 cp && N.leb cp 57343)%bool then
                            match read_string None r'' with
                            | Some (t, rest) =>
                                Some ((utf8_encode
                                         (65536 + (hi - 55296) * 1024 + (cp - 56320))%N
                                       ++ t)%string, rest)
                            | None => None
                            end
                          else None
                      | None =>
                          if (N.leb 55296 cp && N.leb cp 56319)%bool then
                            read_string (Some cp) r''
                          else if (N.leb 56320 cp && N.leb cp 57343)%bool then None
                          else
                            match read_string None r'' with
                            | Some (t, rest) => Some ((utf8_encode cp ++ t)%string, rest)
                            | None => None
                            end
                      end
                  | _, _, _, _ => None
                  end
              | _ => None
              end
            else if Ascii.eqb e dquote then plain dquote r'
            else if Ascii.eqb e backslash then plain backslash r'
            else if Ascii.eqb e "/" then plain "/"%char r'
            else if Ascii.eqb e "b" then plain (ascii_of_nat 8) r'
            else if Ascii.eqb e "f" then plain (ascii_of_nat 12) r'
            else if Ascii.eqb e "n" then plain (ascii_of_nat 10) r'
            else if Ascii.eqb e "r" then plain (ascii_of_nat 13) r'
            else if Ascii.eqb e "t" then plain (ascii_of_nat 9) r'
            else None
        | EmptyString => None
        end
      else if N.ltb (code c) 32 then None
      else plain c r
  end.

(** A number literal: an optional minus, then a zero or a run of digits
    that does not start with one, then an optional fraction (a point and
    digits), then an optional exponent (e or E, a sign, digits). *)
Definition read_number (s : string) : option (pyval * string) :=
  let (negative, s1) :=
    match s with
    | String c r => if Ascii.eqb c "-" then (true, r) else (false, s)
    | EmptyString => (false, s)
    end in
  let sign (n : Z) := if negative : bool then - n else n in
  let whole :=
    match s1 with
    | String c r =>
        if Ascii.eqb c "0" then Some (0, r)
        else if is_digit c then
          let '(n, _, rest) := take_digits s1 0 0 in Some (n, rest)
        else None
    | EmptyString => None
    end in
  match whole with
  | None => None
  | Some (n, s2) =>
      let '(mantissa, places, s3) :=
        match s2 with
        | String c r =>
            if Ascii.eqb c "." then
              let '(m, k, rest) := take_digits r n 0 in
              if k =? 0 then (n, 0, s2) else (m, k, rest)
            else (n, 0, s2)
        | EmptyString => (n, 0, s2)
        end in
      let exponent :=
        match s3 with
        | String c r =>
            if (Ascii.eqb c "e" || Ascii.eqb c "E")%bool then
              let (minus, r1) :=
                match r with
                | String d r' =>
                    if Ascii.eqb d "-" then (true, r')
                    else if Ascii.eqb d "+" then (false, r')
                    else (false, r)
                | EmptyString => (false, r)
                end in
              let '(x, k, rest) := take_digits r1 0 0 in
              if k =? 0 then None
              else Some ((if minus : bool then - x else x), rest)
            else None
        | EmptyString => None
        end in
      match exponent with
      | Some (x, s4) => Some (PyFloat (FDec (sign mantissa) (x - places)), s4)
      | None =>
          if places =? 0 then Some (PyInt (sign n), s3)
          else Some (PyFloat (FDec (sign mantissa) (- places)), s3)
      end
  end.

(** [d[k] = v]: a key already there keeps its place. *)
Fixpoint dict_set (k : string) (v : pyval) (d : list (string * pyval))
  : list (string * pyval) :=
  match d with
  | [] => [(k, v)]
  | (k', v') :: rest =>
      if String.eqb k k' then (k, v) :: rest else (k', v') :: dict_set k v rest
  end.

Fixpoint read_value (fuel : nat) (s : string) : option (pyval * string) :=
  match fuel with
  | O => None
  | S fuel' =>
      match skip_ws s with
      | EmptyString => None
      | String c r as s' =>
          if Ascii.eqb c "{" then
            match skip_ws r with
            | String c' r' =>
                if Ascii.eqb c' "}" then Some (PyDict [], r')
                else read_members fuel' (skip_ws r) []
            | EmptyString => None
            end
          else if Ascii.eqb c "[" then
            match skip_ws r with
            | String c' r' =>
                if Ascii.eqb c' "]" then Some (PyList [], r')
                else read_elements fuel' r []
            | EmptyString => None
            end
          else if Ascii.eqb c dquote then
            match read_string None r with
            | Some (t, rest) => Some (PyStr t, rest)
            | None => None
            end
          else
            match strip_prefix "true" s', strip_prefix "false" s',
                  strip_prefix "null" s', strip_prefix "NaN" s',
                  strip_prefix "Infinity" s', strip_prefix "-Infinity" s' with
            | Some rest, _, _, _, _, _ => Some (PyBool true, rest)
            | _, Some rest, _, _, _, _ => Some (PyBool false, rest)
            | _, _, Some rest, _, _, _ => Some (PyNone, rest)
            | _, _, _, Some rest, _, _ => Some (PyFloat FNan, rest)
            | _, _, _, _, Some rest, _ => Some (PyFloat (FInf false), rest)
            | _, _, _, _, _, Some rest => Some (PyFloat (FInf true), rest)
            | None, None, None, None, None, None => read_number s'
            end
      end
  end

with read_elements (fuel : nat) (s : string) (acc : list pyval)
  : option (pyval * string) :=
  match fuel with
  | O => None
  | S fuel' =>
      match read_value fuel' s with
      | Some (v, rest) =>
          match skip_ws rest with
          | String c r =>
              if Ascii.eqb c "," then read_elements fuel' r (acc ++ [v])
              else if Ascii.eqb c "]" then Some (PyList (acc ++ [v]), r)
              else None
          | EmptyString => None
          end
      | None => None
      end
  end

with read_members (fuel : nat) (s : string) (acc : list (string * pyval))
  : option (pyval * string) :=
  match fuel with
  | O => None
  | S fuel' =>
      match s with
      | String q r =>
          if Ascii.eqb q dquote then
            match read_string None r with
            | Some (k, r1) =>
                match skip_ws r1 with
                | String c r2 =>
                    if Ascii.eqb c ":" then
                      match read_value fuel' r2 with
                      | Some (v, r3) =>
                          match skip_ws r3 with
                          | String c' r4 =>
                              if Ascii.eqb c' "," then
                                read_members fuel' (skip_ws r4) (dict_set k v acc)
                              else if Ascii.eqb c' "}" then
                                Some (PyDict (dict_set k v acc), r4)
                              else None
                          | EmptyString => None
                          end
                      | None => None
                      end
                    else None
                | EmptyString => None
                end
            | None => None
            end
          else None
      | EmptyString => None
      end
  end.

Definition loads (s : string) : outcome pyval :=
  match read_value (S (String.length s)) s with
  | Some (v, rest) =>
      match skip_ws rest with
      | EmptyString => Done v
      | String _ _ => Fails "Extra data"
      end
  | None => Fails "Expecting value"
  end.

(** *** Writing JSON *)

(** The code point that starts [s] when [s] is well-formed UTF-8, and what
    follows it. *)
Definition next_code_point (s : string) : option (N * string) :=
  match s with
  | EmptyString => None
  | String c0 r0 =>
      let n0 := code c0 in
      if N.ltb n0 128 then Some (n0, r0)
      else if N.ltb n0 224 then
        match r0 with
        | String c1 r1 => Some (((n0 - 192) * 64 + (code c1 - 128))%N, r1)
        | _ => None
        end
      else if N.ltb n0 240 then
        match r0 with
        | String c1 (String c2 r2) =>
            Some (((n0 - 224) * 4096 + (code c1 - 128) * 64 + (code c2 - 128))%N, r2)
        | _ => None
        end
      else
        match r0 with
        | String c1 (String c2 (String c3 r3)) =>
            Some (((n0 - 240) * 262144 + (code c1 - 128) * 4096
                   + (code c2 - 128) * 64 + (code c3 - 128))%N, r3)
        | _ => None
        end
  end.

Definition escape_code_point (cp : N) : string :=
  let two (c : ascii) := String backslash (String c EmptyString) in
  if N.eqb cp 34 then two dquote
  else if N.eqb cp 92 then two backslash
  else if N.eqb cp 10 then two "n"%char
  else if N.eqb cp 13 then two "r"%char
  else if N.eqb cp 9 then two "t"%char
  else if N.eqb cp 8 then two "b"%char
  else if N.eqb cp 12 then two "f"%char
  else if (N.leb 32 cp && N.leb cp 126)%bool then String (ascii_of_N cp) EmptyString
  else if N.ltb cp 65536 then u_escape cp
  else
    (u_escape (55296 + (cp - 65536) / 1024)%N
     ++ u_escape (56320 + (cp - 65536) mod 1024)%N)%string.

Fixpoint escape_text (fuel : nat) (s : string) : string :=
  match fuel with
  | O => EmptyString
  | S fuel' =>
      match next_code_point s with
      | Some (cp, rest) => (escape_code_point cp ++ escape_text fuel' rest)%string
      | None => EmptyString
      end
  end.

(** A string literal with [ensure_ascii]. *)
Definition quote (s : string) : string :=
  String dquote (escape_text (String.length s) s ++ String dquote EmptyString)%string.

Definition dumps_float (f : pyfloat) : string :=
  match f with
  | FDec m e => (str_int m ++ "e" ++ str_int e)%string
  | FInf false => "Infinity"%string
  | FInf true => "-Infinity"%string
  | FNan => "NaN"%string
  end.

(** [json.dumps] with its default separators. *)
Fixpoint dumps (v : pyval) : string :=
  match v with
  | PyNone => "null"%string
  | PyBool true => "true"%string
  | PyBool false => "false"%string
  | PyInt n => str_int n
  | PyFloat f => dumps_float f
  | PyStr s => quote s
  | PyList l =>
      ("[" ++
       (fix items (l : list pyval) : string :=
          match l with
          | [] => EmptyString
          | x :: rest =>
              match rest with
              | [] => dumps x
              | _ :: _ => dumps x ++ ", " ++ items rest
              end
          end) l
       ++ "]")%string
  | PyDict d =>
      ("{" ++
       (fix members (d : list (string * pyval)) : string :=
          match d with
          | [] => EmptyString
          | (k, x) :: rest =>
              match rest with
              | [] => quote k ++ ": " ++ dumps x
              | _ :: _ => quote k ++ ": " ++ dumps x ++ ", " ++ members rest
              end
          end) d
       ++ "}")%string
  end.

(** *** [int()] *)

(** The code points at which a run of the ten decimal digits of a script
    starts (Unicode 14). *)
Definition digit_zeros : list N :=
  [ 48; 1632; 1776; 1984; 2406; 2534; 2662; 2790;
    2918; 3046; 3174; 3302; 3430; 3558; 3664; 3792;
    3872; 4160; 4240; 6112; 6160; 6470; 6608; 6784;
    6800; 6992; 7088; 7232; 7248; 42528; 43216; 43264;
    43472; 43504; 43600; 44016; 65296; 66720; 68912; 69734;
    69872; 69942; 70096; 70384; 70736; 70864; 71248; 71360;
    71472; 71904; 72016; 72784; 73040; 73120; 92768; 92864;
    93008; 120782; 120792; 120802; 120812; 120822; 123200; 123632;
    125264; 130032 ]%N.

(** The value of a decimal digit of any script. *)
Definition decimal_of (cp : N) : option N :=
  match find (fun z => (N.leb z cp && N.leb cp (z + 9))%bool) digit_zeros with
  | Some z => Some (cp - z)%N
  | None => None
  end.

(** The code points [int()] takes for white space. *)
Definition is_space_code (cp : N) : bool :=
  ((N.leb 9 cp && N.leb cp 13) || (N.leb 28 cp && N.leb cp 32)
   || N.eqb cp 133 || N.eqb cp 160 || N.eqb cp 5760
   || (N.leb 8192 cp && N.leb cp 8202)
   || N.eqb cp 8232 || N.eqb cp 8233 || N.eqb cp 8239 || N.eqb cp 8287
   || N.eqb cp 12288)%bool.

(** The text as [int()] first rewrites it: every decimal digit as its
    ASCII digit, every white space as a space; a code point beyond ASCII
    that is neither becomes one no number holds. *)
Fixpoint to_ascii (fuel : nat) (s : string) : string :=
  match fuel with
  | O => EmptyString
  | S fuel' =>
      match next_code_point s with
      | None => EmptyString
      | Some (cp, rest) =>
          let c :=
            match decimal_of cp with
            | Some d => ascii_of_N (48 + d)%N
            | None =>
                if is_space_code cp then " "%char
                else if N.ltb cp 128 then ascii_of_N cp
                else ascii_of_N 0
            end in
          String c (to_ascii fuel' rest)
      end
  end.

Definition is_space (c : ascii) : bool := N.eqb (code c) 32.

Fixpoint all_space (s : string) : bool :=
  match s with
  | EmptyString => true
  | String c r => is_space c && all_space r
  end.

Fixpoint skip_space (s : string) : string :=
  match s with
  | String c r => if is_space c then skip_space r else s
  | EmptyString => s
  end.

(** Digits, single underscores between them, trailing white space. *)
Fixpoint int_digits (s : string) (acc : Z) (after_digit : bool) : option Z :=
  match s with
  | EmptyString => if after_digit then Some acc else None
  | String c r =>
      if is_digit c then int_digits r (acc * 10 + digit_value c) true
      else if Ascii.eqb c "_" then
        if after_digit then
          match r with
          | String c' _ => if is_digit c' then int_digits r acc false else None
          | EmptyString => None
          end
        else None
      else if (after_digit && all_space s)%bool then Some acc
      else None
  end.

Definition int_of_text (s : string) : outcome Z :=
  let refused := Fails ("invalid literal for int() with base 10: '" ++ s ++ "'")%string in
  match skip_space (to_ascii (String.length s) s) with
  | String c r =>
      let (negative, body) :=
        if Ascii.eqb c "-" then (true, r)
        else if Ascii.eqb c "+" then (false, r)
        else (false, String c r) in
      match int_digits body 0 false with
      | Some n => Done (if negative : bool then - n else n)
      | None => refused
      end
  | EmptyString => refused
  end.

(** *** [datetime.isoformat()] *)

Definition two_digits (n : Z) : string :=
  (if n <? 10 then "0" ++ str_int n else str_int n)%Z%string.

Definition pad (width : nat) (s : string) : string :=
  (string_of_list_ascii (repeat "0"%char (width - String.length s)) ++ s)%string.

(** A timestamp is a number of microseconds since 1970-01-01T00:00:00. *)
Definition iso (t : Z) : string :=
  let micro := t mod 1000000 in
  let secs := t / 1000000 in
  let days := secs / 86400 in
  let rem := secs mod 86400 in
  let z := days + 719468 in
  let era := z / 146097 in
  let doe := z - era * 146097 in
  let yoe := (doe - doe / 1460 + doe / 36524 - doe / 146096) / 365 in
  let doy := doe - (365 * yoe + yoe / 4 - yoe / 100) in
  let mp := (5 * doy + 2) / 153 in
  let d := doy - (153 * mp + 2) / 5 + 1 in
  let m := if mp <? 10 then mp + 3 else mp - 9 in
  let y := yoe + era * 400 + (if m <=? 2 then 1 else 0) in
  (pad 4 (str_int y) ++ "-" ++ two_digits m ++ "-" ++ two_digits d ++ "T"
   ++ two_digits (rem / 3600) ++ ":" ++ two_digits ((rem / 60) mod 60) ++ ":"
   ++ two_digits (rem mod 60)
   ++ (if micro =? 0 then EmptyString else "." ++ pad 6 (str_int micro)))%Z%string.

(** *** The store *)

(** [n] rounded to 53 significant bits, ties to even: the integer that the
    double nearest to [n] is. *)
Definition round53 (n : Z) : Z :=
  let a := Z.abs n in
  let k := Z.log2 a - 52 in
  if k <=? 0 then n
  else
    let q := Z.shiftr a k in
    let r := a - Z.shiftl q k in
    let half := Z.shiftl 1 (k - 1) in
    let q' := if ((half <? r) || ((r =? half) && Z.odd q))%bool then q + 1 else q in
    Z.sgn n * Z.shiftl q' k.

(** Is [m * 10 ^ x] zero, or a number whose nearest double is neither
    infinite nor zero? *)
Definition in_double_range (m x : Z) : bool :=
  let a := Z.abs m in
  let top := 2 ^ 1024 - 2 ^ 970 in
  if a =? 0 then true
  else if 0 <=? x then a * 10 ^ x <? top
  else ((a <? top * 10 ^ (- x)) && (10 ^ (- x) <? a * 2 ^ 1075))%bool.

Definition lower (c : ascii) : ascii :=
  if (N.leb 65 (code c) && N.leb (code c) 90)%bool
  then ascii_of_N (code c + 32)%N else c.

Fixpoint lower_text (s : string) : string :=
  match s with
  | EmptyString => EmptyString
  | String c r => String (lower c) (lower_text r)
  end.

(** The white space the store skips around a number: [isspace] of C. *)
Definition is_c_space (c : ascii) : bool :=
  let n := code c in
  (N.eqb n 32 || (N.leb 9 n && N.leb n 13))%bool.

Fixpoint skip_c_space (s : string) : string :=
  match s with
  | String c r => if is_c_space c then skip_c_space r else s
  | EmptyString => s
  end.

Definition only_c_space (s : string) : bool :=
  match skip_c_space s with
  | EmptyString => true
  | String _ _ => false
  end.

(** A text the store reads into a [double precision] column: white space
    around, a sign, then digits with an optional point and an optional
    exponent, or a spelling of NaN or of infinity. *)
Definition double_of_text (s : string) : option pyfloat :=
  let s0 := skip_c_space s in
  let (negative, s1) :=
    match s0 with
    | String c r =>
        if Ascii.eqb c "-" then (true, r)
        else if Ascii.eqb c "+" then (false, r)
        else (false, s0)
    | EmptyString => (false, s0)
    end in
  let word := lower_text s1 in
  match strip_prefix "nan" word, strip_prefix "infinity" word,
        strip_prefix "inf" word with
  | Some rest, _, _ => if only_c_space rest then Some FNan else None
  | None, Some rest, _ => if only_c_space rest then Some (FInf negative) else None
  | None, None, Some rest => if only_c_space rest then Some (FInf negative) else None
  | None, None, None =>
      let '(whole, k1, s2) := take_digits s1 0 0 in
      let '(mantissa, k2, s3) :=
        match s2 with
        | String c r =>
            if Ascii.eqb c "." then take_digits r whole 0 else (whole, 0, s2)
        | EmptyString => (whole, 0, s2)
        end in
      if k1 + k2 =? 0 then None
      else
        let exponent :=
          match s3 with
          | String c r =>
              if (Ascii.eqb c "e" || Ascii.eqb c "E")%bool then
                let (minus, r1) :=
                  match r with
                  | String d r' =>
                      if Ascii.eqb d "-" then (true, r')
                      else if Ascii.eqb d "+" then (false, r')
                      else (false, r)
                  | EmptyString => (false, r)
                  end in
                let '(x, k, rest) := take_digits r1 0 0 in
                if k =? 0 then None
                else Some ((if minus : bool then - x else x), rest)
              else Some (0, s3)
          | EmptyString => Some (0, s3)
          end in
        match exponent with
        | Some (x, rest) =>
            if (only_c_space rest && in_double_range mantissa (x - k2))%bool
            then Some (FDec (if negative : bool then - mantissa else mantissa)
                            (x - k2))
            else None
        | None => None
        end
  end.

(** What the [Float] column holds for a value the store accepts: an
    integer becomes the double nearest to it, a float stays what it is, a
    text is read as a number. *)
Definition double_of (v : pyval) : pyval :=
  match v with
  | PyInt n => PyFloat (FDec (round53 n) 0)
  | PyStr s =>
      match double_of_text s with
      | Some f => PyFloat f
      | None => v
      end
  | _ => v
  end.

(** The store's verdict on a row.  An integer outside 32 bits and a level
    that is no number are refused when the statement is prepared; a null
    is refused when the row is written, after its key has been drawn. *)
Definition schema_error (o : WaterLevel) : option (string * string) :=
  let not_null (column : string) :=
    Some ("psycopg2.errors.NotNullViolation",
          "null value in column " ++ column ++ " violates not-null constraint")%string in
  let level_error :=
    match level_cm o with
    | PyNone => not_null "level_cm"
    | PyInt m =>
        if in_double_range m 0 then None
        else Some ("psycopg2.errors.NumericValueOutOfRange",
                   "value out of range for type double precision")%string
    | PyFloat _ => None
    | PyStr s =>
        match double_of_text s with
        | Some _ => None
        | None => Some ("psycopg2.errors.InvalidTextRepresentation",
                        "invalid input syntax for type double precision")%string
        end
    | PyDict _ =>
        Some ("psycopg2.ProgrammingError", "can't adapt type 'dict'")%string
    | PyBool _ | PyList _ =>
        Some ("psycopg2.errors.DatatypeMismatch",
              "column level_cm is of type double precision")%string
    end in
  match tank_id o with
  | PyNone => not_null "tank_id"
  | PyInt n =>
      if ((-2147483648 <=? n) && (n <=? 2147483647))%bool then level_error
      else Some ("psycopg2.errors.NumericValueOutOfRange",
                 "integer out of range")%string
  | _ =>
      Some ("psycopg2.errors.DatatypeMismatch",
            "column tank_id is of type integer")%string
  end.

(** A key is drawn exactly for the rows refused for a null. *)
Definition draws_key (o : WaterLevel) : bool :=
  match schema_error o with
  | Some (cls, _) => String.eqb cls "psycopg2.errors.NotNullViolation"
  | None => false
  end.

End Reference.

(** * Sample inputs *)

Module Sample.

Definition q : string := String Reference.dquote EmptyString.

(** The object with the one key [level] bound to 12.5, as JSON text. *)
Definition level_text : string := "{" ++ q ++ "level" ++ q ++ ": 12.5}".

(** The object with the one key [level] bound to the string [deep]. *)
Definition text_level_text : string :=
  "{" ++ q ++ "level" ++ q ++ ": " ++ q ++ "deep" ++ q ++ "}".

(** The object with the one key [depth] bound to 3. *)
Definition no_level_text : string := "{" ++ q ++ "depth" ++ q ++ ": 3}".

Definition level_message : mqtt_message :=
  {| topic := "sensor/tank/5/water_level";
     payload := list_byte_of_string level_text |}.

Definition text_level_message : mqtt_message :=
  {| topic := "sensor/tank/5/water_level";
     payload := list_byte_of_string text_level_text |}.

Definition no_level_message : mqtt_message :=
  {| topic := "sensor/tank/5/water_level";
     payload := list_byte_of_string no_level_text |}.

Definition not_json_message : mqtt_message :=
  {| topic := "sensor/tank/5/water_level";
     payload := list_byte_of_string "level=12.5" |}.

Definition bad_id_message : mqtt_message :=
  {| topic := "sensor/tank/abc/water_level";
     payload := list_byte_of_string level_text |}.

Definition gate_status_message : mqtt_message :=
  {| topic := "sensor/gate/5/status";
     payload := list_byte_of_string level_text |}.

(** One byte that starts no UTF-8 sequence. *)
Definition undecodable_message : mqtt_message :=
  {| topic := "sensor/tank/5/water_level";
     payload := [Byte.xff] |}.

Definition empty_world : world :=
  {| rows := []; next_id := 1; now := 1700000000000000; db_down := None;
     db_session := fresh_session; mqtt_connected := true;
     subscriptions := ["sensor/tank/+/water_level"; "sensor/gate/+/status"];
     published := []; stdout := [] |}.

Definition down_world : world :=
  {| rows := []; next_id := 1; now := 1700000000000000;
     db_down := Some ("psycopg2.OperationalError", "connection refused");
     db_session := fresh_session; mqtt_connected := true;
     subscriptions := ["sensor/tank/+/water_level"; "sensor/gate/+/status"];
     published := []; stdout := [] |}.

Definition reading (key tank : Z) (level : pyval) (t : Z) : WaterLevel :=
  {| id := Some key; tank_id := PyInt tank; level_cm := level;
     timestamp := Some t |}.

(** Three Readings stored out of time order. *)
Definition stocked_world : world :=
  {| rows := [ reading 1 5 (PyFloat (FDec 12 0)) 1700000000000000;
               reading 2 6 (PyFloat (FDec 75 (-1))) 1700000120000000;
               reading 3 5 (PyFloat (FDec 13 0)) 1700000060000000 ];
     next_id := 4; now := 1700000180000000; db_down := None;
     db_session := fresh_session; mqtt_connected := false;
     subscriptions := []; published := []; stdout := [] |}.

Definition open_request : http_request :=
  {| get_json := Return (PyDict [("action", PyStr "open")]) |}.

Definition explode_request : http_request :=
  {| get_json := Return (PyDict [("action", PyStr "explode")]) |}.

End Sample.

(** ** Counting and keys *)

(** The same world at another moment: the store's clock reads [t]. *)
Definition at_time (t : Z) (w : world) : world :=
  {| rows := rows w; next_id := next_id w; now := t; db_down := db_down w;
     db_session := db_session w; mqtt_connected := mqtt_connected w;
     subscriptions := subscriptions w; published := published w;
     stdout := stdout w |}.

Definition is_message (op : operation) : bool :=
  match op with
  | OnMessage _ => true
  | _ => false
  end.

(** How many of the operations are inbound broker messages. *)
Definition count_messages (ops : list operation) : nat :=
  List.length (filter is_message ops).

(** Every stored row has a key, and the key is below the counter. *)
Definition keys_below (w : world) : Prop :=
  Forall (fun r => exists k, id r = Some k /\ k < next_id w) (rows w).

(** The topics of the messages handed to the broker. *)
Definition published_topics (w : world) : list string :=
  map fst (published w).

Module Inputs.

(** The object with the one key [level] bound to [null]. *)
Definition null_level_text : string :=
  "{" ++ Sample.q ++ "level" ++ Sample.q ++ ": null}".

Definition null_level_message : mqtt_message :=
  {| topic := "sensor/tank/5/water_level";
     payload := list_byte_of_string null_level_text |}.

(** A level topic under another root, with a trailing segment. *)
Definition foreign_level_message : mqtt_message :=
  {| topic := "yard/tank/5/water_level/raw";
     payload := list_byte_of_string Sample.level_text |}.

Definition one_segment_message : mqtt_message :=
  {| topic := "sensor";
     payload := list_byte_of_string Sample.level_text |}.

Definition not_json_status_message : mqtt_message :=
  {| topic := "sensor/gate/5/status";
     payload := list_byte_of_string "closed" |}.

(** A tank id one past the largest 32-bit integer. *)
Definition wide_id_message : mqtt_message :=
  {| topic := "sensor/tank/2147483648/water_level";
     payload := list_byte_of_string Sample.level_text |}.

(** The object with the one key [level] bound to the integer 2^53 + 1. *)
Definition long_level_text : string :=
  "{" ++ Sample.q ++ "level" ++ Sample.q ++ ": 9007199254740993}".

Definition long_level_message : mqtt_message :=
  {| topic := "sensor/tank/5/water_level";
     payload := list_byte_of_string long_level_text |}.

(** The object with the one key [level] bound to the integer 12. *)
Definition whole_level_text : string :=
  "{" ++ Sample.q ++ "level" ++ Sample.q ++ ": 12}".

Definition whole_level_message : mqtt_message :=
  {| topic := "sensor/tank/5/water_level";
     payload := list_byte_of_string whole_level_text |}.

(** The object with the one key [level] bound to the string [12.5]. *)
Definition quoted_level_text : string :=
  "{" ++ Sample.q ++ "level" ++ Sample.q ++ ": "
  ++ Sample.q ++ "12.5" ++ Sample.q ++ "}".

Definition quoted_level_message : mqtt_message :=
  {| topic := "sensor/tank/5/water_level";
     payload := list_byte_of_string quoted_level_text |}.

(** A table holding one row whose timestamp is NULL. *)
Definition unstamped_world : world :=
  {| rows := [ Sample.reading 1 5 (PyFloat (FDec 12 0)) 1700000000000000;
               {| id := Some 2; tank_id := PyInt 6; level_cm := PyFloat (FDec 3 0);
                  timestamp := None |} ];
     next_id := 3; now := 1700000180000000; db_down := None;
     db_session := fresh_session; mqtt_connected := true;
     subscriptions := []; published := []; stdout := [] |}.

End Inputs.

(** * Properties *)

(** ** Built-ins *)

Example str_int_5 : str_int 5 = "5".
Proof. reflexivity. Qed.

Example str_int_1024 : str_int 1024 = "1024".
Proof. reflexivity. Qed.

Example split_level_topic :
  split "/" "sensor/tank/5/water_level" = ["sensor"; "tank"; "5"; "water_level"].
Proof. reflexivity. Qed.

Example split_empty_segments : split "/" "a//b/" = ["a"; EmptyString; "b"; EmptyString].
Proof. reflexivity. Qed.

Lemma digit_code (d : N) : (d < 10)%N -> (N_of_ascii (digit d) - 48 = d)%N.
Proof.
  intros H. unfold digit. rewrite N_ascii_embedding by lia. lia.
Qed.

Lemma digits_pos_value (fuel : nat) :
  forall (n : N) (acc : string),
    (n < 2 ^ N.of_nat fuel)%N ->
    value_of_digits (digits_pos fuel n acc)
    = (n * 10 ^ N.of_nat (String.length acc) + value_of_digits acc)%N.
Proof.
  induction fuel as [|fuel IH]; intros n acc Hn.
  - simpl in *. assert (n = 0%N) by lia. subst. reflexivity.
  - cbn [digits_pos].
    assert (Hd : (n mod 10 < 10)%N) by (apply N.mod_lt; lia).
    destruct (N.ltb n 10) eqn:E.
    + apply N.ltb_lt in E. cbn [value_of_digits].
      rewrite (digit_code _ Hd), N.mod_small by exact E. reflexivity.
    + apply N.ltb_ge in E.
      rewrite IH.
      * cbn [value_of_digits String.length].
        rewrite (digit_code _ Hd), Nnat.Nat2N.inj_succ, N.pow_succ_r'.
        pose proof (N.div_mod n 10 ltac:(lia)) as Hdm.
        set (p := (10 ^ N.of_nat (String.length acc))%N).
        set (v := value_of_digits acc).
        rewrite Hdm at 3. lia.
      * rewrite Nnat.Nat2N.inj_succ, N.pow_succ_r' in Hn.
        apply N.Div0.div_lt_upper_bound. lia.
Qed.

(** The fuel of [str_N] is enough: the digits it writes denote [n]. *)
Lemma str_N_value (n : N) : value_of_digits (str_N n) = n.
Proof.
  unfold str_N. rewrite digits_pos_value.
  - simpl. lia.
  - rewrite Nnat.Nat2N.inj_succ, Nnat.N2Nat.id.
    destruct n as [|p]; [reflexivity|].
    apply N.log2_spec. reflexivity.
Qed.

Lemma str_int_nonneg (n : Z) :
  0 <= n -> value_of_digits (str_int n) = Z.to_N n.
Proof.
  destruct n as [|p|p]; intros H; [reflexivity| |lia].
  apply (str_N_value (Npos p)).
Qed.

Lemma str_int_neg (n : Z) :
  n < 0 -> str_int n = "-" ++ str_int (- n).
Proof.
  destruct n as [|p|p]; intros H; try lia. reflexivity.
Qed.

Lemma split_nonempty (sep : ascii) (s : string) : split sep s <> [].
Proof.
  induction s as [|c s IH]; simpl; [discriminate|].
  destruct (Ascii.eqb c sep); [discriminate|].
  destruct (split sep s); [contradiction|discriminate].
Qed.

Lemma split_no_sep (sep : ascii) (s : string) :
  has_char sep s = false -> split sep s = [s].
Proof.
  induction s as [|c s IH]; simpl; intros H; [reflexivity|].
  apply orb_false_iff in H. destruct H as [Hc Hs].
  rewrite Hc, (IH Hs). reflexivity.
Qed.

Lemma split_app_sep (sep : ascii) (a b : string) :
  has_char sep a = false ->
  split sep (a ++ String sep b) = a :: split sep b.
Proof.
  induction a as [|c a IH]; simpl; intros H.
  - rewrite Ascii.eqb_refl. reflexivity.
  - apply orb_false_iff in H. destruct H as [Hc Ha].
    rewrite Hc, (IH Ha). reflexivity.
Qed.

(** The segments of a level topic whose identifier holds no slash. *)
Lemma split_level_topic_of (tid : string) :
  has_char "/" tid = false ->
  split "/" ("sensor/tank/" ++ tid ++ "/water_level")
  = ["sensor"; "tank"; tid; "water_level"].
Proof.
  intros H.
  change ("sensor/tank/" ++ tid ++ "/water_level")
    with ("sensor" ++ String "/" ("tank" ++ String "/" (tid ++ String "/" "water_level"))).
  rewrite split_app_sep by reflexivity.
  rewrite split_app_sep by reflexivity.
  rewrite split_app_sep by assumption.
  reflexivity.
Qed.

(** ** The endpoint and the publishing helper *)

Section Facade.
Context {L : Library}.

Lemma set_session_same (w : world) : set_session (db_session w) w = w.
Proof. destruct w; reflexivity. Qed.

Lemma request_not_global : existsb (String.eqb "request") wsgi_globals = false.
Proof. reflexivity. Qed.

(** The deployed endpoint never gets past its first line: [request] is not
    a name of the module, so every call answers 500 with the [NameError]
    text and leaves the world as it found it. *)
Lemma api_command_gate_request_unbound (request : http_request) (tank_id : Z) (w : world) :
  api_command_gate request tank_id w =
    (Return (jsonify (PyDict [("error", PyStr "name 'request' is not defined")]) 500), w).
Proof. reflexivity. Qed.

(** What [send_gate_command] does to the world. *)
Lemma send_gate_command_run (tank_id : Z) (command : pyval) (w : world) :
  let topic := "command/gate/" ++ str_int tank_id ++ "/action" in
  let payload := json_dumps (PyDict [("action", command)]) in
  send_gate_command tank_id command w =
    (Return tt,
     {| rows := rows w; next_id := next_id w; now := now w;
        db_down := db_down w; db_session := db_session w;
        mqtt_connected := mqtt_connected w;
        subscriptions := subscriptions w;
        published := published w ++ [(topic, payload)];
        stdout := stdout w ++ [LogCmd payload topic] |}).
Proof. destruct w; reflexivity. Qed.

Lemma load_global_bound (globals : list string) (name : string) (w : world) :
  existsb (String.eqb name) globals = true ->
  load_global globals name w = (Return tt, w).
Proof. intros H. unfold load_global. rewrite H. reflexivity. Qed.

Ltac run_bind :=
  unfold bind at 1; cbv beta iota.

(** In a module that binds [request] beside the names of [wsgi.py], a body
    whose [action] is [open] or [close] is answered 200 and published
    once. *)
Lemma api_command_gate_in_accepts (globals : list string) (request : http_request)
    (tank_id : Z) (d : list (string * pyval)) (c : string) (w : world) :
  existsb (String.eqb "request") globals = true ->
  existsb (String.eqb "send_gate_command") globals = true ->
  existsb (String.eqb "jsonify") globals = true ->
  get_json request = Return (PyDict d) ->
  assoc "action" d = Some (PyStr c) ->
  c = "open" \/ c = "close" ->
  exists w',
    api_command_gate_in globals request tank_id w =
      (Return (jsonify (PyDict [ ("status", PyStr "Command sent");
                                 ("tank_id", PyInt tank_id);
                                 ("action", PyStr c) ]) 200), w')
    /\ published w' =
         (published w ++ [(("command/gate/" ++ str_int tank_id ++ "/action")%string,
                           json_dumps (PyDict [("action", PyStr c)]))])%list.
Proof.
  intros Hg Hs Hjs Hj Ha Hc.
  assert (Hin : py_in_strs (PyStr c) ["open"; "close"] = true)
    by (destruct Hc; subst c; reflexivity).
  unfold api_command_gate_in, try_except.
  run_bind. rewrite (load_global_bound _ _ _ Hg). cbv beta iota.
  run_bind. unfold request_get_json. rewrite Hj. cbv beta iota.
  run_bind. unfold py_get. rewrite Ha. unfold ret at 1. cbv beta iota.
  rewrite Hin.
  run_bind. rewrite (load_global_bound _ _ _ Hs). cbv beta iota.
  run_bind. rewrite send_gate_command_run. cbv beta iota zeta.
  run_bind. rewrite (load_global_bound _ _ _ Hjs). cbv beta iota.
  unfold ret. eexists. split; reflexivity.
Qed.

(** In such a module a body whose [action] is anything else (or absent) is
    answered 400 and nothing is published. *)
Lemma api_command_gate_in_rejects (globals : list string) (request : http_request)
    (tank_id : Z) (d : list (string * pyval)) (w : world) :
  existsb (String.eqb "request") globals = true ->
  existsb (String.eqb "jsonify") globals = true ->
  get_json request = Return (PyDict d) ->
  (forall c, assoc "action" d = Some (PyStr c) -> c <> "open" /\ c <> "close") ->
  api_command_gate_in globals request tank_id w =
    (Return (jsonify (PyDict [("error", PyStr "Invalid command")]) 400), w).
Proof.
  intros Hg Hjs Hj Ha.
  assert (Hin : forall v, (forall c, v = PyStr c -> c <> "open" /\ c <> "close") ->
                          py_in_strs v ["open"; "close"] = false).
  { intros v Hv. destruct v; try reflexivity.
    destruct (Hv s eq_refl) as [Ho Hc]. cbn.
    apply String.eqb_neq in Ho. apply String.eqb_neq in Hc.
    rewrite Ho, Hc. reflexivity. }
  unfold api_command_gate_in, try_except.
  run_bind. rewrite (load_global_bound _ _ _ Hg). cbv beta iota.
  run_bind. unfold request_get_json. rewrite Hj. cbv beta iota.
  run_bind. unfold py_get.
  destruct (assoc "action" d) as [v|] eqn:E; unfold ret at 1; cbv beta iota.
  - rewrite Hin by (intros c ->; apply Ha; reflexivity).
    run_bind. rewrite (load_global_bound _ _ _ Hjs). reflexivity.
  - change (py_in_strs PyNone ["open"; "close"]) with false. cbv iota.
    run_bind. rewrite (load_global_bound _ _ _ Hjs). reflexivity.
Qed.

End Facade.

(** ** The message handler *)

Section Bridge.
Context {L : Library}.

Ltac run_step :=
  match goal with
  | |- context [match ?x with _ => _ end] =>
      lazymatch x with
      | context [match _ with _ => _ end] => fail
      | _ => destruct x eqn:?
      end
  end.

Ltac run_step_in H :=
  match type of H with
  | context [match ?x with _ => _ end] =>
      lazymatch x with
      | context [match _ with _ => _ end] => fail
      | _ => destruct x eqn:?
      end
  end.

Ltac unfold_handler :=
  unfold handle_mqtt_message, with_app_context, try_except,
    handle_mqtt_message_try, handle_mqtt_message_except, bind, call,
    index, getitem, session_add, session_commit, session_rollback, print,
    raise, raise_db, ret.

Ltac unfold_handler_in H :=
  unfold handle_mqtt_message, with_app_context, try_except,
    handle_mqtt_message_try, handle_mqtt_message_except, bind, call,
    index, getitem, session_add, session_commit, session_rollback, print,
    raise, raise_db, ret in H.

(** A message adds at most one row, and only a row whose two required
    columns are filled; nothing else in the table moves. *)
Lemma handle_mqtt_message_rows (message : mqtt_message) (w : world) :
  rows (snd (handle_mqtt_message message w)) = rows w
  \/ exists n lv,
       lv <> PyNone
       /\ insert_error (new_level n lv) = None
       /\ rows (snd (handle_mqtt_message message w))
          = (rows w ++ [stored_level w n lv])%list.
Proof.
  unfold_handler. cbn.
  repeat (run_step; cbn; try (left; reflexivity)).
  right. exists a1, p. split; [|split; [assumption|reflexivity]].
  intros ->.
  eapply insert_error_null; [|eassumption]. right. reflexivity.
Qed.

(** Whenever the payload is valid text, the handler returns: whatever the
    [try] suite raises is caught, and the [except] suite runs through. *)
Lemma handle_mqtt_message_returns (message : mqtt_message) (w : world) (text : string) :
  bytes_decode (payload message) = Done text ->
  fst (handle_mqtt_message message w) = Return tt.
Proof.
  intros Hd. unfold_handler. cbn. rewrite Hd. cbn.
  repeat (run_step; cbn; try reflexivity).
Qed.

(** X2: the handler raises exactly when the payload is not valid text, and
    what leaves it then is that payload's [UnicodeDecodeError]: every
    other failure is caught. *)
Lemma handle_mqtt_message_raises_iff (message : mqtt_message) (w : world) (e : exn) :
  fst (handle_mqtt_message message w) = Raise e
  <-> bytes_decode (payload message) = Fails (str_exn e)
      /\ exn_class_of e = UnicodeDecodeError.
Proof.
  destruct (bytes_decode (payload message)) as [text|msg] eqn:Hd.
  - rewrite (handle_mqtt_message_returns message w text Hd).
    split; [discriminate|]. intros [H _]. discriminate.
  - unfold_handler. cbn. rewrite Hd. cbn. split.
    + intros H. inversion H; subst. split; reflexivity.
    + intros [H Hc]. destruct e as [c m]. cbn in *. inversion H; subst. reflexivity.
Qed.

(** A payload that is not JSON is dropped. *)
Lemma handle_mqtt_message_not_json (message : mqtt_message) (w : world)
    (text msg : string) :
  bytes_decode (payload message) = Done text ->
  json_loads text = Fails msg ->
  fst (handle_mqtt_message message w) = Return tt
  /\ rows (snd (handle_mqtt_message message w)) = rows w.
Proof.
  intros Hd Hj. unfold_handler. cbn. rewrite Hd. cbn. rewrite Hj. cbn.
  split; reflexivity.
Qed.

(** A payload without a [level] (a dict that lacks the key, or anything
    that is not a dict) is dropped, on every topic. *)
Lemma handle_mqtt_message_no_level (message : mqtt_message) (w : world)
    (text : string) (data : pyval) :
  bytes_decode (payload message) = Done text ->
  json_loads text = Done data ->
  (forall d, data = PyDict d -> assoc "level" d = None) ->
  fst (handle_mqtt_message message w) = Return tt
  /\ rows (snd (handle_mqtt_message message w)) = rows w.
Proof.
  intros Hd Hj Hl. split; [eapply handle_mqtt_message_returns; eassumption|].
  unfold_handler. cbn. rewrite Hd. cbn. rewrite Hj. cbn.
  repeat (run_step; cbn; try reflexivity).
  all: specialize (Hl _ eq_refl); congruence.
Qed.

(** A level that the store refuses is dropped. *)
Lemma handle_mqtt_message_refused (message : mqtt_message) (w : world)
    (text : string) (d : list (string * pyval)) (lv : pyval) :
  bytes_decode (payload message) = Done text ->
  json_loads text = Done (PyDict d) ->
  assoc "level" d = Some lv ->
  (forall n, insert_error (new_level n lv) <> None) ->
  fst (handle_mqtt_message message w) = Return tt
  /\ rows (snd (handle_mqtt_message message w)) = rows w.
Proof.
  intros Hd Hj Hl Hr. split; [eapply handle_mqtt_message_returns; eassumption|].
  unfold_handler. cbn. rewrite Hd. cbn. rewrite Hj. cbn. rewrite Hl.
  repeat (run_step; cbn; try reflexivity).
  exfalso. eapply Hr. eassumption.
Qed.

(** C3 (the code breaks it): a message with a missing or non-numeric
    [level], or with a payload that fails to decode, should persist nothing
    and let no exception out of the handler.  On a payload that is not
    valid UTF-8 nothing is persisted, but the [except] suite decodes the
    payload a second time to print it, and that [UnicodeDecodeError] leaves
    the handler. *)
Theorem handle_mqtt_message_undecodable_escapes
    (message : mqtt_message) (w : world) (msg : string) :
  bytes_decode (payload message) = Fails msg ->
  fst (handle_mqtt_message message w) = Raise (mk_exn UnicodeDecodeError msg)
  /\ rows (snd (handle_mqtt_message message w)) = rows w
  /\ stdout (snd (handle_mqtt_message message w))
     = (stdout w ++ [LogError (mk_exn UnicodeDecodeError msg)])%list.
Proof.
  intros Hd. unfold_handler. cbn. rewrite Hd. cbn.
  repeat split; reflexivity.
Qed.

(** C4 (amended): a message on [sensor/tank/<id>/water_level] whose [<id>]
    converts to the integer [n] and whose decoded payload carries a numeric
    [level], arriving while the store answers and accepts the row for that
    id and level, persists exactly one Reading, with source id [n] and with
    the level as the [Float] column holds it (the double nearest to it) as
    its value; the handler returns normally. *)
Theorem handle_mqtt_message_persists_level
    (message : mqtt_message) (w : world) (tid text : string) (n : Z)
    (d : list (string * pyval)) (lv : pyval) :
  topic message = "sensor/tank/" ++ tid ++ "/water_level" ->
  has_char "/" tid = false ->
  py_int tid = Done n ->
  bytes_decode (payload message) = Done text ->
  json_loads text = Done (PyDict d) ->
  assoc "level" d = Some lv ->
  is_number lv = true ->
  db_down w = None ->
  insert_error (new_level n lv) = None ->
  fst (handle_mqtt_message message w) = Return tt
  /\ exists r,
       rows (snd (handle_mqtt_message message w)) = (rows w ++ [r])%list
       /\ tank_id r = PyInt n
       /\ level_cm r = float_column lv
       /\ id r = Some (next_id w)
       /\ timestamp r = Some (now w).
Proof.
  intros Ht Hs Hi Hd Hj Hl _ Hup Hok.
  split; [eapply handle_mqtt_message_returns; eassumption|].
  exists (stored_level w n lv).
  unfold_handler. rewrite Ht, (split_level_topic_of tid Hs).
  cbn. rewrite Hd. cbn. rewrite Hj. cbn. rewrite Hi. cbn. rewrite Hl. cbn.
  rewrite Hup. fold (new_level n lv). rewrite Hok. cbn.
  repeat split; reflexivity.
Qed.

(** C7: when the [try] suite raises after the session has been touched
    (an object added, a commit refused), the [except] suite rolls the
    session back, so that the table is as the message found it and the
    session is clean again, and the handler returns normally: the failure
    reaches no caller.  The key counter never goes back: it is where it
    was, or one further when the store had drawn a key for the refused
    row. *)
Theorem handle_mqtt_message_rolls_back
    (message : mqtt_message) (w w1 : world) (e : exn) :
  handle_mqtt_message_try message (set_session fresh_session w) = (Raise e, w1) ->
  db_session w1 <> fresh_session ->
  (exists w2,
     try_except (handle_mqtt_message_try message)
                (handle_mqtt_message_except message)
                (set_session fresh_session w) = (Return tt, w2)
     /\ db_session w2 = fresh_session
     /\ rows w2 = rows w
     /\ next_id w <= next_id w2 <= next_id w + 1)
  /\ fst (handle_mqtt_message message w) = Return tt
  /\ rows (snd (handle_mqtt_message message w)) = rows w
  /\ next_id w <= next_id (snd (handle_mqtt_message message w)) <= next_id w + 1.
Proof.
  intros Htry Htouched.
  unfold handle_mqtt_message, with_app_context, try_except.
  rewrite Htry.
  unfold_handler_in Htry. cbn in Htry.
  repeat (run_step_in Htry; cbn in Htry);
    inversion Htry; subst; clear Htry;
    try (exfalso; apply Htouched; reflexivity).
  all: unfold handle_mqtt_message_except, bind, call, session_rollback,
         print, ret; cbn;
       match goal with H : bytes_decode _ = Done _ |- _ => rewrite H end; cbn;
       (split; [eexists; repeat split; first [reflexivity | cbn; lia]
               | repeat split; first [reflexivity | cbn; lia]]).
Qed.

(** C10: on a topic [sensor/tank/<id>/water_level] whose [<id>] the
    integer conversion refuses, nothing is persisted and the conversion's
    [ValueError] never leaves the handler; once the conversion is reached
    (the payload decoded and parsed) the handler returns normally, having
    logged that error and the payload. *)
Theorem handle_mqtt_message_bad_tank_id
    (message : mqtt_message) (w : world) (tid msg : string) :
  topic message = "sensor/tank/" ++ tid ++ "/water_level" ->
  has_char "/" tid = false ->
  py_int tid = Fails msg ->
  rows (snd (handle_mqtt_message message w)) = rows w
  /\ (forall e, fst (handle_mqtt_message message w) = Raise e ->
                exn_class_of e <> ValueError)
  /\ (forall text data,
        bytes_decode (payload message) = Done text ->
        json_loads text = Done data ->
        fst (handle_mqtt_message message w) = Return tt
        /\ stdout (snd (handle_mqtt_message message w))
           = (stdout w ++ [LogError (mk_exn ValueError msg);
                           LogFailedPayload text])%list).
Proof.
  intros Ht Hs Hi.
  unfold_handler. rewrite Ht, (split_level_topic_of tid Hs). cbn.
  destruct (bytes_decode (payload message)) as [text|m] eqn:Hd; cbn.
  - destruct (json_loads text) as [data|m] eqn:Hj; cbn.
    + rewrite Hi. cbn. split; [reflexivity|]. split; [discriminate|].
      intros text' data' Ht' Hj'. inversion Ht'; subst.
      split; [reflexivity|]. rewrite <- app_assoc. reflexivity.
    + split; [reflexivity|]. split; [discriminate|].
      intros text' data' Ht' Hj'. inversion Ht'; subst. congruence.
  - split; [reflexivity|]. split.
    + intros e He. inversion He; subst. cbn. discriminate.
    + intros; discriminate.
Qed.

End Bridge.

(** ** The order of [GET /api/levels] *)

Lemma newer_eq_total (a b : WaterLevel) :
  newer_eq a b = false -> newer_eq b a = true.
Proof.
  unfold newer_eq.
  destruct (timestamp a), (timestamp b); try reflexivity; try discriminate.
  intros H. apply Z.leb_gt in H. apply Z.leb_le. lia.
Qed.

Lemma newer_eq_trans (a b c : WaterLevel) :
  newer_eq a b = true -> newer_eq b c = true -> newer_eq a c = true.
Proof.
  unfold newer_eq.
  destruct (timestamp a), (timestamp b), (timestamp c);
    try reflexivity; try discriminate.
  intros H1 H2. apply Z.leb_le in H1, H2. apply Z.leb_le. lia.
Qed.

Lemma insert_desc_perm (r : WaterLevel) (l : list WaterLevel) :
  Permutation (r :: l) (insert_desc r l).
Proof.
  induction l as [|h t IH]; simpl.
  - apply Permutation_refl.
  - destruct (newer_eq r h).
    + apply Permutation_refl.
    + eapply perm_trans; [apply perm_swap|]. apply perm_skip. exact IH.
Qed.

Lemma order_by_timestamp_desc_perm (l : list WaterLevel) :
  Permutation l (order_by_timestamp_desc l).
Proof.
  induction l as [|h t IH]; simpl.
  - apply perm_nil.
  - eapply perm_trans; [apply perm_skip; exact IH|]. apply insert_desc_perm.
Qed.

Lemma insert_desc_sorted (r : WaterLevel) (l : list WaterLevel) :
  Sorted (fun a b => newer_eq a b = true) l ->
  Sorted (fun a b => newer_eq a b = true) (insert_desc r l).
Proof.
  induction l as [|h t IH]; simpl; intros Hs.
  - constructor; constructor.
  - destruct (newer_eq r h) eqn:E.
    + constructor; [assumption|]. constructor. exact E.
    + inversion Hs as [|? ? Ht Hh]; subst.
      constructor; [apply IH; assumption|].
      destruct t as [|h' t']; simpl.
      * constructor. apply newer_eq_total. exact E.
      * destruct (newer_eq r h') eqn:E'.
        -- constructor. apply newer_eq_total. exact E.
        -- inversion Hh; subst. constructor. assumption.
Qed.

Lemma order_by_timestamp_desc_sorted (l : list WaterLevel) :
  StronglySorted (fun a b => newer_eq a b = true) (order_by_timestamp_desc l).
Proof.
  apply Sorted_StronglySorted.
  - intros a b c. apply newer_eq_trans.
  - induction l as [|h t IH]; simpl.
    + constructor.
    + apply insert_desc_sorted. exact IH.
Qed.

Lemma StronglySorted_newest_first (l : list WaterLevel) :
  Forall (fun r => timestamp r <> None) l ->
  StronglySorted (fun a b => newer_eq a b = true) l ->
  StronglySorted newest_first l.
Proof.
  induction l as [|h t IH]; intros Hts Hs.
  - constructor.
  - inversion Hts as [|? ? Hh Ht]; subst.
    inversion Hs as [|? ? Hs' Hall]; subst.
    constructor; [apply IH; assumption|].
    rewrite Forall_forall in *. intros b Hb.
    specialize (Hall b Hb). specialize (Ht b Hb).
    unfold newer_eq in Hall. unfold newest_first.
    destruct (timestamp h) as [x|]; [|contradiction].
    destruct (timestamp b) as [y|]; [|contradiction].
    exists x, y. repeat split. apply Z.leb_le. exact Hall.
Qed.

(** ** The HTTP facade *)

Section Endpoints.
Context {L : Library}.

(** C1 (the code breaks it): a POST to [/api/command/gate/<id>] with body
    [{"action": "open"}] should be answered 200 with [{status, tank_id,
    action}] and publish one message on [command/gate/<id>/action].  The
    deployed endpoint answers 500 with an [error] body and publishes
    nothing, because [request] was never imported. *)
Theorem api_command_gate_open_answers_500 (tank_id : Z) (w : world) :
  let request := {| get_json := Return (PyDict [("action", PyStr "open")]) |} in
  exists r,
    api_command_gate request tank_id w = (Return r, w)
    /\ status_code r = 500
    /\ json r = PyDict [("error", PyStr "name 'request' is not defined")]
    /\ published (snd (api_command_gate request tank_id w)) = published w.
Proof.
  intros request. eexists. rewrite api_command_gate_request_unbound.
  repeat split; reflexivity.
Qed.

(** C2 (the code breaks it): a POST whose [action] is outside
    [{open, close}] should be answered 400 and publish nothing.  Nothing is
    published, but the deployed endpoint answers 500, for the same unbound
    name [request]. *)
Theorem api_command_gate_other_action_answers_500 (tank_id : Z) (c : string) (w : world) :
  py_in_strs (PyStr c) ["open"; "close"] = false ->
  let request := {| get_json := Return (PyDict [("action", PyStr c)]) |} in
  status_code_of (api_command_gate request tank_id w) = Some 500
  /\ status_code_of (api_command_gate request tank_id w) <> Some 400
  /\ published (snd (api_command_gate request tank_id w)) = published w.
Proof.
  intros _ request. rewrite api_command_gate_request_unbound.
  repeat split. discriminate.
Qed.

(** C8: for every target id [t] and command string [c],
    [send_gate_command] returns having handed the broker exactly one more
    message, on the topic [command/gate/<t>/action], whose payload is the
    JSON text of the object [{"action": c}]. *)
Theorem send_gate_command_publishes (t : Z) (c : string) (w : world) :
  fst (send_gate_command t (PyStr c) w) = Return tt
  /\ published (snd (send_gate_command t (PyStr c) w))
     = (published w
        ++ [(("command/gate/" ++ str_int t ++ "/action")%string,
             json_dumps (PyDict [("action", PyStr c)]))])%list.
Proof.
  rewrite send_gate_command_run. split; reflexivity.
Qed.

(** C6: the health check always answers 200.  While the store is
    unreachable the body carries [db_status = "error"] and the error text
    under [db_error_message]; while the trivial query succeeds it carries
    [db_status = "ok"] and no [db_error_message] key. *)
Theorem home_reports_store (w : world) :
  exists body,
    home w = (Return (jsonify (PyDict body) 200), w)
    /\ assoc "status" body = Some (PyStr "Eelytics API is Live")
    /\ assoc "mqtt_status" body = Some (PyBool (mqtt_connected w))
    /\ match db_down w with
       | Some err =>
           assoc "db_status" body = Some (PyStr "error")
           /\ assoc "db_error_message" body
              = Some (PyStr (db_error_text (fst err) (snd err)))
       | None =>
           assoc "db_status" body = Some (PyStr "ok")
           /\ assoc "db_error_message" body = None
       end.
Proof.
  unfold home, bind, with_app_context, try_except, session_execute_select_1,
    raise_db, raise, ret.
  destruct w as [rs k t down s c subs pub out]. cbn.
  destruct down as [[cls msg]|]; cbn.
  - eexists. split; [reflexivity|]. repeat split; reflexivity.
  - eexists. split; [reflexivity|]. repeat split; reflexivity.
Qed.

Lemma level_dict_run (r : WaterLevel) (t : Z) (w : world) :
  timestamp r = Some t ->
  level_dict r w =
    (Return (PyDict [ ("id", py_opt_int (id r));
                      ("tank_id", tank_id r);
                      ("level_cm", level_cm r);
                      ("timestamp", PyStr (isoformat t)) ]), w).
Proof. intros Et. unfold level_dict, bind. rewrite Et. reflexivity. Qed.

Lemma for_each_level_dict (levels : list WaterLevel) (w : world) :
  Forall (fun r => timestamp r <> None) levels ->
  exists body,
    for_each level_dict levels w = (Return body, w)
    /\ Forall2 serialized levels body.
Proof.
  induction levels as [|r rest IH]; intros Hts.
  - exists []. split; [reflexivity|constructor].
  - inversion Hts as [|? ? Hr Hrest]; subst.
    destruct (IH Hrest) as [body [Hrun Hser]].
    destruct (timestamp r) as [t|] eqn:Et; [|contradiction].
    eexists. split.
    + change (for_each level_dict (r :: rest))
        with (y <- level_dict r ;; ys <- for_each level_dict rest ;; ret (y :: ys)).
      unfold bind. rewrite (level_dict_run r t w Et), Hrun. reflexivity.
    + constructor; [|exact Hser]. exists t. split; [exact Et|reflexivity].
Qed.

(** C5: while the store answers, and every stored Reading carries its
    timestamp (as every row written by the bridge does), [GET /api/levels]
    answers 200 with one [{id, tank_id, level_cm, timestamp}] object per
    stored Reading, all of them, newest first: no object is followed by one
    with a later timestamp. *)
Theorem get_levels_newest_first (w : world) :
  db_down w = None ->
  Forall (fun r => timestamp r <> None) (rows w) ->
  exists levels body,
    get_levels w = (Return (jsonify (PyList body) 200), w)
    /\ Permutation (rows w) levels
    /\ StronglySorted newest_first levels
    /\ Forall2 serialized levels body.
Proof.
  intros Hup Hts.
  pose proof (order_by_timestamp_desc_perm (rows w)) as Hperm.
  assert (Hts' : Forall (fun r => timestamp r <> None)
                        (order_by_timestamp_desc (rows w))).
  { rewrite Forall_forall in *. intros r Hr. apply Hts.
    eapply Permutation_in; [apply Permutation_sym; exact Hperm|exact Hr]. }
  destruct (for_each_level_dict _ (set_session fresh_session w) Hts')
    as [body [Hrun Hser]].
  exists (order_by_timestamp_desc (rows w)), body.
  split; [|split; [exact Hperm|split; [|exact Hser]]].
  - unfold get_levels, with_app_context, bind, session_select_levels.
    change (failed (db_session (set_session fresh_session w))) with false.
    change (db_down (set_session fresh_session w)) with (db_down w).
    change (rows (set_session fresh_session w)) with (rows w).
    cbv iota. rewrite Hup, Hrun. unfold ret.
    destruct w; reflexivity.
  - apply StronglySorted_newest_first; [exact Hts'|].
    apply order_by_timestamp_desc_sorted.
Qed.

End Endpoints.

(** ** Readings are created complete and kept *)

Section Lifecycle.
Context {L : Library}.

Lemma for_each_level_dict_world (levels : list WaterLevel) (w : world) :
  snd (for_each level_dict levels w) = w.
Proof.
  induction levels as [|r rest IH]; [reflexivity|].
  change (for_each level_dict (r :: rest))
    with (y <- level_dict r ;; ys <- for_each level_dict rest ;; ret (y :: ys)).
  unfold bind.
  destruct (timestamp r) as [t|] eqn:Et.
  - rewrite (level_dict_run r t w Et).
    destruct (for_each level_dict rest w) as [[body|e] w'] eqn:E;
      simpl in IH; subst w'; reflexivity.
  - unfold level_dict, bind. rewrite Et. reflexivity.
Qed.

Lemma get_levels_world (w : world) : snd (get_levels w) = w.
Proof.
  unfold get_levels, with_app_context, bind, session_select_levels.
  change (failed (db_session (set_session fresh_session w))) with false.
  change (db_down (set_session fresh_session w)) with (db_down w).
  change (rows (set_session fresh_session w)) with (rows w).
  cbv iota.
  destruct (db_down w) as [err|].
  - destruct w; reflexivity.
  - pose proof (for_each_level_dict_world (order_by_timestamp_desc (rows w))
                  (set_session fresh_session w)) as Hw.
    destruct (for_each level_dict (order_by_timestamp_desc (rows w))
                (set_session fresh_session w)) as [[body|e] w'];
      simpl in Hw; subst w'; destruct w; reflexivity.
Qed.

Lemma home_world (w : world) : snd (home w) = w.
Proof.
  unfold home, bind, with_app_context, try_except, session_execute_select_1,
    raise_db, raise, ret.
  destruct w as [rs k t down s c subs pub out]. cbn.
  destruct down as [[cls msg]|]; reflexivity.
Qed.

Lemma handle_connect_rows (rc : Z) (w : world) :
  rows (snd (handle_connect rc w)) = rows w.
Proof. unfold handle_connect. destruct (rc =? 0); reflexivity. Qed.

(** One operation adds only complete rows behind the ones already there. *)
Lemma run_rows (op : operation) (w : world) :
  exists added,
    rows (run op w) = (rows w ++ added)%list
    /\ Forall (fun r => tank_id r <> PyNone /\ level_cm r <> PyNone
                        /\ timestamp r <> None) added.
Proof.
  destruct op as [rc|message| | |request tid|tid command]; unfold run.
  - exists []. rewrite handle_connect_rows, app_nil_r. split; [reflexivity|constructor].
  - destruct (handle_mqtt_message_rows message w) as [Hsame|[n [lv [Hlv [_ Hadd]]]]].
    + exists []. rewrite Hsame, app_nil_r. split; [reflexivity|constructor].
    + exists [stored_level w n lv]. split; [exact Hadd|].
      constructor; [|constructor].
      split; [discriminate|split; [|discriminate]].
      apply float_column_not_null. exact Hlv.
  - exists []. rewrite home_world, app_nil_r. split; [reflexivity|constructor].
  - exists []. rewrite get_levels_world, app_nil_r. split; [reflexivity|constructor].
  - exists []. rewrite api_command_gate_request_unbound, app_nil_r.
    split; [reflexivity|constructor].
  - exists []. rewrite send_gate_command_run, app_nil_r.
    split; [reflexivity|constructor].
Qed.

(** C9: whatever operation runs, in whatever world, the Readings that were
    stored are still there afterwards, unchanged and in place, and every
    Reading the operation added has a source id and a value that are not
    null: a Reading is created complete and is never mutated or deleted. *)
Theorem readings_complete_and_kept (op : operation) (w : world) :
  exists added,
    rows (run op w) = (rows w ++ added)%list
    /\ Forall (fun r => tank_id r <> PyNone /\ level_cm r <> PyNone) added.
Proof.
  destruct (run_rows op w) as [added [Hrows Hadded]].
  exists added. split; [exact Hrows|].
  eapply Forall_impl; [|exact Hadded]. intros r [Ht [Hl _]]. split; assumption.
Qed.

(** The same over any sequence of operations; the rows added also carry
    their timestamp, which is what [get_levels] relies on. *)
Lemma run_all_rows (ops : list operation) (w : world) :
  exists added,
    rows (run_all ops w) = (rows w ++ added)%list
    /\ Forall (fun r => tank_id r <> PyNone /\ level_cm r <> PyNone
                        /\ timestamp r <> None) added.
Proof.
  revert w. induction ops as [|op ops IH]; intros w.
  - exists []. rewrite app_nil_r. split; [reflexivity|constructor].
  - simpl. destruct (IH (run op w)) as [later [Hrows Hlater]].
    destruct (run_rows op w) as [added [Hadd Hadded]].
    exists (added ++ later)%list. split.
    + rewrite Hrows, Hadd, app_assoc. reflexivity.
    + apply Forall_app. split; assumption.
Qed.

(** Starting from a table whose rows all carry a timestamp, they still do
    after any sequence of operations. *)
Lemma run_all_timestamps (ops : list operation) (w : world) :
  Forall (fun r => timestamp r <> None) (rows w) ->
  Forall (fun r => timestamp r <> None) (rows (run_all ops w)).
Proof.
  intros Hw. destruct (run_all_rows ops w) as [added [Hrows Hadded]].
  rewrite Hrows. apply Forall_app. split; [exact Hw|].
  eapply Forall_impl; [|exact Hadded]. intros r [_ [_ Ht]]. exact Ht.
Qed.

End Lifecycle.

(** ** The reference library at work *)

Lemma schema_error_null (o : WaterLevel) :
  tank_id o = PyNone \/ level_cm o = PyNone -> Reference.schema_error o <> None.
Proof.
  unfold Reference.schema_error. intros [H|H]; rewrite H.
  - discriminate.
  - destruct (tank_id o); try discriminate.
    destruct ((-2147483648 <=? n) && (n <=? 2147483647))%bool; discriminate.
Qed.

Lemma double_of_not_null (v : pyval) :
  v <> PyNone -> Reference.double_of v <> PyNone.
Proof.
  intros Hv. destruct v; try exact Hv; try discriminate.
  unfold Reference.double_of. destruct (Reference.double_of_text s); discriminate.
Qed.

#[local] Instance reference_library : Library := {|
  bytes_decode := Reference.decode;
  json_loads := Reference.loads;
  json_dumps := Reference.dumps;
  py_int := Reference.int_of_text;
  isoformat := Reference.iso;
  insert_error := Reference.schema_error;
  insert_error_null := schema_error_null;
  refusal_draws_key := Reference.draws_key;
  float_column := Reference.double_of;
  float_column_not_null := double_of_not_null
|}.

Example reference_payload_of_open :
  json_dumps (PyDict [("action", PyStr "open")])
  = ("{" ++ Sample.q ++ "action" ++ Sample.q ++ ": "
     ++ Sample.q ++ "open" ++ Sample.q ++ "}")%string.
Proof. reflexivity. Qed.

Example reference_loads_level :
  json_loads Sample.level_text = Done (PyDict [("level", PyFloat (FDec 125 (-1)))]).
Proof. reflexivity. Qed.

Example level_message_stored :
  handle_mqtt_message Sample.level_message Sample.empty_world
  = (Return tt,
     {| rows := [Sample.reading 1 5 (PyFloat (FDec 125 (-1))) 1700000000000000];
        next_id := 2; now := 1700000000000000; db_down := None;
        db_session := fresh_session; mqtt_connected := true;
        subscriptions := ["sensor/tank/+/water_level"; "sensor/gate/+/status"];
        published := [];
        stdout := [LogDb "5" (PyFloat (FDec 125 (-1)))] |}).
Proof. vm_compute. reflexivity. Qed.

Example text_level_message_dropped :
  fst (handle_mqtt_message Sample.text_level_message Sample.empty_world) = Return tt
  /\ rows (snd (handle_mqtt_message Sample.text_level_message Sample.empty_world)) = [].
Proof. vm_compute. split; reflexivity. Qed.

Example no_level_message_dropped :
  fst (handle_mqtt_message Sample.no_level_message Sample.empty_world) = Return tt
  /\ rows (snd (handle_mqtt_message Sample.no_level_message Sample.empty_world)) = []
  /\ stdout (snd (handle_mqtt_message Sample.no_level_message Sample.empty_world))
     = [LogError (mk_exn KeyError "'level'"); LogFailedPayload Sample.no_level_text].
Proof. vm_compute. repeat split; reflexivity. Qed.

Example not_json_message_dropped :
  fst (handle_mqtt_message Sample.not_json_message Sample.empty_world) = Return tt
  /\ rows (snd (handle_mqtt_message Sample.not_json_message Sample.empty_world)) = [].
Proof. vm_compute. split; reflexivity. Qed.

Example gate_status_message_ignored :
  handle_mqtt_message Sample.gate_status_message Sample.empty_world
  = (Return tt, Sample.empty_world).
Proof. vm_compute. reflexivity. Qed.

Example short_topic_is_an_index_error :
  stdout (snd (handle_mqtt_message
                 {| topic := "sensor"; payload := payload Sample.level_message |}
                 Sample.empty_world))
  = [LogError (mk_exn IndexError "list index out of range");
     LogFailedPayload Sample.level_text].
Proof. vm_compute. reflexivity. Qed.

Example undecodable_message_raises :
  fst (handle_mqtt_message Sample.undecodable_message Sample.empty_world)
  = Raise (mk_exn UnicodeDecodeError
             "'utf-8' codec can't decode the payload: invalid byte sequence").
Proof. vm_compute. reflexivity. Qed.

Example deployed_open_request :
  api_command_gate Sample.open_request 5 Sample.empty_world
  = (Return (jsonify (PyDict [("error", PyStr "name 'request' is not defined")]) 500),
     Sample.empty_world).
Proof. vm_compute. reflexivity. Qed.

Example deployed_explode_request :
  api_command_gate Sample.explode_request 5 Sample.empty_world
  = (Return (jsonify (PyDict [("error", PyStr "name 'request' is not defined")]) 500),
     Sample.empty_world).
Proof. vm_compute. reflexivity. Qed.

(** With [request] among the module's names the same two requests are
    answered 200 (and published) and 400 (and not published). *)
Example bound_open_request :
  let run := api_command_gate_in ("request" :: wsgi_globals)
               Sample.open_request 5 Sample.empty_world in
  fst run = Return (jsonify (PyDict [ ("status", PyStr "Command sent");
                                      ("tank_id", PyInt 5);
                                      ("action", PyStr "open") ]) 200)
  /\ published (snd run)
     = [("command/gate/5/action",
         "{" ++ Sample.q ++ "action" ++ Sample.q ++ ": "
         ++ Sample.q ++ "open" ++ Sample.q ++ "}")%string].
Proof. vm_compute. split; reflexivity. Qed.

Example bound_explode_request :
  api_command_gate_in ("request" :: wsgi_globals)
    Sample.explode_request 5 Sample.empty_world
  = (Return (jsonify (PyDict [("error", PyStr "Invalid command")]) 400),
     Sample.empty_world).
Proof. vm_compute. reflexivity. Qed.

Example home_while_store_down :
  home Sample.down_world
  = (Return (jsonify
               (PyDict [ ("status", PyStr "Eelytics API is Live");
                         ("mqtt_status", PyBool true);
                         ("db_status", PyStr "error");
                         ("db_error_message",
                          PyStr "(psycopg2.OperationalError) connection refused") ])
               200),
     Sample.down_world).
Proof. vm_compute. reflexivity. Qed.

Example home_while_store_up :
  home Sample.empty_world
  = (Return (jsonify
               (PyDict [ ("status", PyStr "Eelytics API is Live");
                         ("mqtt_status", PyBool true);
                         ("db_status", PyStr "ok") ])
               200),
     Sample.empty_world).
Proof. vm_compute. reflexivity. Qed.

Example get_levels_of_stocked_world :
  fst (get_levels Sample.stocked_world)
  = Return (jsonify
              (PyList
                 [ PyDict [ ("id", PyInt 2); ("tank_id", PyInt 6);
                            ("level_cm", PyFloat (FDec 75 (-1)));
                            ("timestamp", PyStr "2023-11-14T22:15:20") ];
                   PyDict [ ("id", PyInt 3); ("tank_id", PyInt 5);
                            ("level_cm", PyFloat (FDec 13 0));
                            ("timestamp", PyStr "2023-11-14T22:14:20") ];
                   PyDict [ ("id", PyInt 1); ("tank_id", PyInt 5);
                            ("level_cm", PyFloat (FDec 12 0));
                            ("timestamp", PyStr "2023-11-14T22:13:20") ] ])
              200).
Proof. vm_compute. reflexivity. Qed.

(** ** The theorems at sample inputs *)

Lemma handle_mqtt_message_undecodable_escapes_witness :
  fst (handle_mqtt_message Sample.undecodable_message Sample.empty_world)
  = Raise (mk_exn UnicodeDecodeError
             "'utf-8' codec can't decode the payload: invalid byte sequence")
  /\ rows (snd (handle_mqtt_message Sample.undecodable_message Sample.empty_world))
     = rows Sample.empty_world
  /\ stdout (snd (handle_mqtt_message Sample.undecodable_message Sample.empty_world))
     = (stdout Sample.empty_world
        ++ [LogError
              (mk_exn UnicodeDecodeError
                 "'utf-8' codec can't decode the payload: invalid byte sequence")])%list.
Proof.
  apply (handle_mqtt_message_undecodable_escapes
           Sample.undecodable_message Sample.empty_world).
  reflexivity.
Defined.

Lemma handle_mqtt_message_persists_level_witness :
  fst (handle_mqtt_message Sample.level_message Sample.empty_world) = Return tt
  /\ exists r,
       rows (snd (handle_mqtt_message Sample.level_message Sample.empty_world))
       = (rows Sample.empty_world ++ [r])%list
       /\ tank_id r = PyInt 5
       /\ level_cm r = PyFloat (FDec 125 (-1))
       /\ id r = Some (next_id Sample.empty_world)
       /\ timestamp r = Some (now Sample.empty_world).
Proof.
  exact (handle_mqtt_message_persists_level
           Sample.level_message Sample.empty_world
           "5" Sample.level_text 5
           [("level", PyFloat (FDec 125 (-1)))] (PyFloat (FDec 125 (-1)))
           eq_refl eq_refl eq_refl eq_refl eq_refl eq_refl eq_refl eq_refl
           eq_refl).
Defined.

(** C4 as first stated fails twice.  An integer tank id that does not fit
    the [Integer] column, with a numeric level and the store reachable, is
    refused: no Reading is persisted.  And an integer level that is no
    double is persisted as the double nearest to it, not as itself. *)
Lemma handle_mqtt_message_persists_level_counterexample :
  (topic Inputs.wide_id_message = "sensor/tank/2147483648/water_level"
   /\ py_int "2147483648" = Done 2147483648
   /\ bytes_decode (payload Inputs.wide_id_message) = Done Sample.level_text
   /\ json_loads Sample.level_text
      = Done (PyDict [("level", PyFloat (FDec 125 (-1)))])
   /\ is_number (PyFloat (FDec 125 (-1))) = true
   /\ db_down Sample.empty_world = None
   /\ rows (snd (handle_mqtt_message Inputs.wide_id_message Sample.empty_world))
      = rows Sample.empty_world
   /\ ~ (exists r,
           rows (snd (handle_mqtt_message Inputs.wide_id_message
                        Sample.empty_world))
           = (rows Sample.empty_world ++ [r])%list))
  /\ (json_loads Inputs.long_level_text
      = Done (PyDict [("level", PyInt 9007199254740993)])
      /\ map level_cm
           (rows (snd (handle_mqtt_message Inputs.long_level_message
                         Sample.empty_world)))
         = [PyFloat (FDec 9007199254740992 0)]).
Proof.
  split.
  - repeat split; try reflexivity.
    intros [r Hr]. vm_compute in Hr. discriminate Hr.
  - split; reflexivity.
Qed.

Example whole_level_stored_as_double :
  map level_cm
    (rows (snd (handle_mqtt_message Inputs.whole_level_message Sample.empty_world)))
  = [PyFloat (FDec 12 0)].
Proof. vm_compute. reflexivity. Qed.

Example quoted_level_stored_as_double :
  map level_cm
    (rows (snd (handle_mqtt_message Inputs.quoted_level_message Sample.empty_world)))
  = [PyFloat (FDec 125 (-1))].
Proof. vm_compute. reflexivity. Qed.

(** The key drawn for a refused null is gone: the next Reading stored gets
    the key after it. *)
Example refused_null_draws_a_key :
  let w1 := snd (handle_mqtt_message Inputs.null_level_message Sample.empty_world) in
  rows w1 = []
  /\ next_id w1 = 2
  /\ map id (rows (snd (handle_mqtt_message Sample.level_message w1))) = [Some 2]
  /\ next_id (snd (handle_mqtt_message Sample.level_message w1)) = 3.
Proof. vm_compute. repeat split; reflexivity. Qed.

Example unreachable_store_draws_no_key :
  next_id (snd (handle_mqtt_message Sample.level_message Sample.down_world)) = 1.
Proof. vm_compute. reflexivity. Qed.

Lemma handle_mqtt_message_rolls_back_witness :
  (exists w2,
     try_except (handle_mqtt_message_try Inputs.null_level_message)
                (handle_mqtt_message_except Inputs.null_level_message)
                (set_session fresh_session Sample.empty_world) = (Return tt, w2)
     /\ db_session w2 = fresh_session
     /\ rows w2 = rows Sample.empty_world
     /\ next_id Sample.empty_world <= next_id w2 <= next_id Sample.empty_world + 1)
  /\ fst (handle_mqtt_message Inputs.null_level_message Sample.empty_world)
     = Return tt
  /\ rows (snd (handle_mqtt_message Inputs.null_level_message Sample.empty_world))
     = rows Sample.empty_world
  /\ next_id Sample.empty_world
     <= next_id (snd (handle_mqtt_message Inputs.null_level_message
                        Sample.empty_world))
     <= next_id Sample.empty_world + 1.
Proof.
  refine (handle_mqtt_message_rolls_back
            Inputs.null_level_message Sample.empty_world
            (set_store [] 2
               (set_session {| pending := [new_level 5 PyNone]; failed := true |}
                  Sample.empty_world))
            (mk_exn DBAPIError
               "(psycopg2.errors.NotNullViolation) null value in column level_cm violates not-null constraint")
            _ _).
  - reflexivity.
  - simpl. discriminate.
Defined.

Lemma handle_mqtt_message_bad_tank_id_witness :
  rows (snd (handle_mqtt_message Sample.bad_id_message Sample.empty_world))
  = rows Sample.empty_world
  /\ (forall e,
        fst (handle_mqtt_message Sample.bad_id_message Sample.empty_world) = Raise e ->
        exn_class_of e <> ValueError)
  /\ (forall text data,
        bytes_decode (payload Sample.bad_id_message) = Done text ->
        json_loads text = Done data ->
        fst (handle_mqtt_message Sample.bad_id_message Sample.empty_world) = Return tt
        /\ stdout (snd (handle_mqtt_message Sample.bad_id_message Sample.empty_world))
           = (stdout Sample.empty_world
              ++ [LogError
                    (mk_exn ValueError
                       "invalid literal for int() with base 10: 'abc'");
                  LogFailedPayload text])%list).
Proof.
  apply (handle_mqtt_message_bad_tank_id
           Sample.bad_id_message Sample.empty_world "abc"
           "invalid literal for int() with base 10: 'abc'");
    reflexivity.
Defined.

Lemma api_command_gate_other_action_answers_500_witness :
  status_code_of (api_command_gate Sample.explode_request 5 Sample.empty_world) = Some 500
  /\ status_code_of (api_command_gate Sample.explode_request 5 Sample.empty_world)
     <> Some 400
  /\ published (snd (api_command_gate Sample.explode_request 5 Sample.empty_world))
     = published Sample.empty_world.
Proof.
  apply (api_command_gate_other_action_answers_500 5 "explode" Sample.empty_world).
  reflexivity.
Defined.

Lemma get_levels_newest_first_witness :
  exists levels body,
    get_levels Sample.stocked_world
    = (Return (jsonify (PyList body) 200), Sample.stocked_world)
    /\ Permutation (rows Sample.stocked_world) levels
    /\ StronglySorted newest_first levels
    /\ Forall2 serialized levels body.
Proof.
  apply (get_levels_newest_first Sample.stocked_world).
  - reflexivity.
  - simpl. repeat constructor; discriminate.
Defined.

(** * More of the application *)

(** ** The broker callbacks *)

Section Callbacks.
Context {L : Library}.

Ltac step :=
  match goal with
  | |- context [match ?x with _ => _ end] =>
      lazymatch x with
      | context [match _ with _ => _ end] => fail
      | _ => destruct x eqn:?
      end
  end.

Ltac unfold_message :=
  unfold handle_mqtt_message, with_app_context, try_except,
    handle_mqtt_message_try, handle_mqtt_message_except, bind, call,
    index, getitem, session_add, session_commit, session_rollback, print,
    raise, raise_db, ret.

(** X1: [handle_connect] always returns; it subscribes to the two sensor
    patterns, in that order, exactly when the return code is 0, logs one
    line either way, and touches neither the table nor the outbox. *)
Theorem handle_connect_subscribes (rc : Z) (w : world) :
  fst (handle_connect rc w) = Return tt
  /\ subscriptions (snd (handle_connect rc w))
     = (subscriptions w
        ++ (if rc =? 0
            then ["sensor/tank/+/water_level"; "sensor/gate/+/status"]
            else []))%list
  /\ stdout (snd (handle_connect rc w))
     = (stdout w ++ [if rc =? 0 then LogConnected else LogConnectFailed rc])%list
  /\ rows (snd (handle_connect rc w)) = rows w
  /\ published (snd (handle_connect rc w)) = published w.
Proof.
  unfold handle_connect. destruct (rc =? 0); cbn.
  - rewrite <- app_assoc. repeat split; reflexivity.
  - rewrite app_nil_r. repeat split; reflexivity.
Qed.

(** X3: the handler never publishes: whatever the message, the outbox, the
    subscriptions, the connection flag, the store's clock and reachability
    and the caller's session are as it found them. *)
Theorem handle_mqtt_message_frame (message : mqtt_message) (w : world) :
  let w' := snd (handle_mqtt_message message w) in
  published w' = published w
  /\ subscriptions w' = subscriptions w
  /\ mqtt_connected w' = mqtt_connected w
  /\ now w' = now w
  /\ db_down w' = db_down w
  /\ db_session w' = db_session w.
Proof.
  cbv zeta. unfold_message. cbn.
  repeat (step; cbn; try (repeat split; (reflexivity || assumption))).
Qed.

(** X4: a message that parses as JSON but whose topic is not a level topic
    (its second segment is not [tank], or its fourth is there and is not
    [water_level]) is ignored without a trace: nothing is stored and
    nothing is logged. *)
Theorem handle_mqtt_message_other_topic
    (message : mqtt_message) (w : world) (text p1 : string) (data : pyval) :
  bytes_decode (payload message) = Done text ->
  json_loads text = Done data ->
  nth_error (split "/" (topic message)) 1 = Some p1 ->
  (p1 <> "tank"
   \/ exists p3, nth_error (split "/" (topic message)) 3 = Some p3
                 /\ p3 <> "water_level") ->
  handle_mqtt_message message w = (Return tt, w).
Proof.
  intros Hd Hj H1 Hshape.
  unfold_message. rewrite Hd. cbn -[nth_error]. rewrite Hj.
  cbn -[nth_error]. rewrite H1.
  destruct (String.eqb p1 "tank") eqn:E1.
  - destruct Hshape as [Hne|[p3 [H3 Hne]]].
    + apply String.eqb_eq in E1. contradiction.
    + rewrite H3. apply String.eqb_neq in Hne. rewrite Hne.
      destruct w; reflexivity.
  - destruct w; reflexivity.
Qed.

(** X5: a topic too short to index (no second segment, or [tank] with no
    fourth segment) makes the handler log an [IndexError] and the payload,
    store nothing and return. *)
Theorem handle_mqtt_message_short_topic
    (message : mqtt_message) (w : world) (text : string) (data : pyval) :
  bytes_decode (payload message) = Done text ->
  json_loads text = Done data ->
  (nth_error (split "/" (topic message)) 1 = None
   \/ (nth_error (split "/" (topic message)) 1 = Some "tank"
       /\ nth_error (split "/" (topic message)) 3 = None)) ->
  fst (handle_mqtt_message message w) = Return tt
  /\ rows (snd (handle_mqtt_message message w)) = rows w
  /\ stdout (snd (handle_mqtt_message message w))
     = (stdout w ++ [LogError (mk_exn IndexError "list index out of range");
                     LogFailedPayload text])%list.
Proof.
  intros Hd Hj Hshape.
  unfold_message. rewrite Hd. cbn -[nth_error]. rewrite Hj. cbn -[nth_error].
  destruct Hshape as [H1|[H1 H3]].
  - rewrite H1. cbn. rewrite <- app_assoc. repeat split; reflexivity.
  - rewrite H1. cbn -[nth_error]. rewrite H3. cbn. rewrite <- app_assoc.
    repeat split; reflexivity.
Qed.

(** X6: only the second and fourth segments of the topic are looked at:
    whatever the first segment and whatever follows the fourth, a message
    with [tank] and [water_level] in those places, an integer third
    segment and a level the store accepts is stored. *)
Theorem handle_mqtt_message_any_root
    (message : mqtt_message) (w : world) (p0 tid text : string)
    (rest : list string) (n : Z) (d : list (string * pyval)) (lv : pyval) :
  split "/" (topic message) = p0 :: "tank" :: tid :: "water_level" :: rest ->
  py_int tid = Done n ->
  bytes_decode (payload message) = Done text ->
  json_loads text = Done (PyDict d) ->
  assoc "level" d = Some lv ->
  db_down w = None ->
  insert_error (new_level n lv) = None ->
  fst (handle_mqtt_message message w) = Return tt
  /\ rows (snd (handle_mqtt_message message w))
     = (rows w ++ [stored_level w n lv])%list.
Proof.
  intros Hs Hi Hd Hj Hl Hup Hok.
  unfold_message. rewrite Hs. cbn. rewrite Hd. cbn. rewrite Hj. cbn.
  rewrite Hi. cbn. rewrite Hl. cbn. rewrite Hup.
  fold (new_level n lv). rewrite Hok. cbn. split; reflexivity.
Qed.

(** X7: the payload is parsed before the topic is looked at, so a payload
    that is valid text but not JSON is logged as an error on every topic,
    also on those the handler would otherwise ignore; nothing is stored
    and the handler returns. *)
Theorem handle_mqtt_message_not_json_logged
    (message : mqtt_message) (w : world) (text msg : string) :
  bytes_decode (payload message) = Done text ->
  json_loads text = Fails msg ->
  fst (handle_mqtt_message message w) = Return tt
  /\ rows (snd (handle_mqtt_message message w)) = rows w
  /\ stdout (snd (handle_mqtt_message message w))
     = (stdout w ++ [LogError (mk_exn JSONDecodeError msg);
                     LogFailedPayload text])%list.
Proof.
  intros Hd Hj.
  unfold_message. rewrite Hd. cbn. rewrite Hj. cbn.
  rewrite <- app_assoc. repeat split; reflexivity.
Qed.

(** X8: a level topic whose payload binds [level] to [null] is never
    stored, whatever the store: [level_cm] is declared [nullable=False],
    the commit is refused, rolled back and logged, and the handler
    returns. *)
Theorem handle_mqtt_message_null_level
    (message : mqtt_message) (w : world) (tid text : string) (n : Z)
    (d : list (string * pyval)) :
  topic message = "sensor/tank/" ++ tid ++ "/water_level" ->
  has_char "/" tid = false ->
  py_int tid = Done n ->
  bytes_decode (payload message) = Done text ->
  json_loads text = Done (PyDict d) ->
  assoc "level" d = Some PyNone ->
  fst (handle_mqtt_message message w) = Return tt
  /\ rows (snd (handle_mqtt_message message w)) = rows w
  /\ exists e,
       exn_class_of e = DBAPIError
       /\ stdout (snd (handle_mqtt_message message w))
          = (stdout w ++ [LogError e; LogFailedPayload text])%list.
Proof.
  intros Ht Hs Hi Hd Hj Hl.
  unfold_message. rewrite Ht, (split_level_topic_of tid Hs).
  cbn. rewrite Hd. cbn. rewrite Hj. cbn. rewrite Hi. cbn. rewrite Hl. cbn.
  destruct (db_down w) as [err|] eqn:Hdown; cbn.
  - split; [reflexivity|]. split; [reflexivity|].
    eexists. split; [|rewrite <- app_assoc; reflexivity]. reflexivity.
  - destruct (insert_error {| id := None; tank_id := PyInt n;
                              level_cm := PyNone; timestamp := None |})
      as [err|] eqn:Herr; cbn.
    + split; [reflexivity|]. split; [reflexivity|].
      eexists. split; [|rewrite <- app_assoc; reflexivity]. reflexivity.
    + exfalso. eapply insert_error_null; [|exact Herr]. right. reflexivity.
Qed.

End Callbacks.

(** ** What a stored message leaves behind *)

Section Stored.
Context {L : Library}.

(** The world after a level message has been stored. *)
Lemma handle_mqtt_message_stores
    (message : mqtt_message) (w : world) (p0 tid text : string)
    (rest : list string) (n : Z) (d : list (string * pyval)) (lv : pyval) :
  split "/" (topic message) = p0 :: "tank" :: tid :: "water_level" :: rest ->
  py_int tid = Done n ->
  bytes_decode (payload message) = Done text ->
  json_loads text = Done (PyDict d) ->
  assoc "level" d = Some lv ->
  db_down w = None ->
  insert_error (new_level n lv) = None ->
  handle_mqtt_message message w
  = (Return tt,
     {| rows := rows w ++ [stored_level w n lv];
        next_id := next_id w + 1; now := now w; db_down := db_down w;
        db_session := db_session w; mqtt_connected := mqtt_connected w;
        subscriptions := subscriptions w; published := published w;
        stdout := stdout w ++ [LogDb tid lv] |}).
Proof.
  intros Hs Hi Hd Hj Hl Hup Hok.
  unfold handle_mqtt_message, with_app_context, try_except,
    handle_mqtt_message_try, bind, call, index, getitem, session_add,
    session_commit, print, raise, raise_db, ret.
  rewrite Hs. cbn. rewrite Hd. cbn. rewrite Hj. cbn.
  rewrite Hi. cbn. rewrite Hl. cbn. rewrite Hup.
  fold (new_level n lv). rewrite Hok. cbn. rewrite ?Hup. reflexivity.
Qed.

(** X9: nothing recognises a repeated message: handling the same accepted
    level message again, when the store's clock reads [t], stores a second
    Reading: the same tank and level, the next key, and each row the time
    of its own insertion. *)
Theorem handle_mqtt_message_twice
    (message : mqtt_message) (w : world) (p0 tid text : string)
    (rest : list string) (n t : Z) (d : list (string * pyval)) (lv : pyval) :
  split "/" (topic message) = p0 :: "tank" :: tid :: "water_level" :: rest ->
  py_int tid = Done n ->
  bytes_decode (payload message) = Done text ->
  json_loads text = Done (PyDict d) ->
  assoc "level" d = Some lv ->
  db_down w = None ->
  insert_error (new_level n lv) = None ->
  rows (snd (handle_mqtt_message message
               (at_time t (snd (handle_mqtt_message message w)))))
  = (rows w
     ++ [ {| id := Some (next_id w); tank_id := PyInt n;
             level_cm := float_column lv; timestamp := Some (now w) |};
          {| id := Some (next_id w + 1); tank_id := PyInt n;
             level_cm := float_column lv; timestamp := Some t |} ])%list.
Proof.
  intros Hs Hi Hd Hj Hl Hup Hok.
  rewrite (handle_mqtt_message_stores message w p0 tid text rest n d lv)
    by assumption.
  cbn [snd].
  rewrite (handle_mqtt_message_stores message _ p0 tid text rest n d lv)
    by assumption.
  cbn. rewrite <- app_assoc. reflexivity.
Qed.

(** What a message does to the table and to the key counter. *)
Lemma handle_mqtt_message_store (message : mqtt_message) (w : world) :
  let w' := snd (handle_mqtt_message message w) in
  (rows w' = rows w /\ next_id w <= next_id w' <= next_id w + 1)
  \/ exists n lv,
       rows w' = (rows w ++ [stored_level w n lv])%list
       /\ next_id w' = next_id w + 1.
Proof.
  cbv zeta.
  unfold handle_mqtt_message, with_app_context, try_except,
    handle_mqtt_message_try, handle_mqtt_message_except, bind, call,
    index, getitem, session_add, session_commit, session_rollback, print,
    raise, raise_db, ret.
  cbn.
  repeat (match goal with
          | |- context [match ?x with _ => _ end] =>
              lazymatch x with
              | context [match _ with _ => _ end] => fail
              | _ => destruct x eqn:?
              end
          end; cbn; try (left; split; [reflexivity|lia])).
  right. eexists _, _. split; reflexivity.
Qed.

Lemma run_store (op : operation) (w : world) :
  (rows (run op w) = rows w /\ next_id w <= next_id (run op w) <= next_id w + 1)
  \/ exists n lv,
       is_message op = true
       /\ rows (run op w) = (rows w ++ [stored_level w n lv])%list
       /\ next_id (run op w) = next_id w + 1.
Proof.
  destruct op as [rc|message| | |request tid|tid command]; unfold run.
  - left. unfold handle_connect. destruct (rc =? 0); cbn; split; (reflexivity || lia).
  - destruct (handle_mqtt_message_store message w) as [H|[n [lv [Hr Hk]]]].
    + left. exact H.
    + right. exists n, lv. split; [reflexivity|]. split; assumption.
  - left. rewrite home_world. split; [reflexivity|lia].
  - left. rewrite get_levels_world. split; [reflexivity|lia].
  - left. rewrite api_command_gate_request_unbound. cbn. split; [reflexivity|lia].
  - left. rewrite send_gate_command_run. cbn. split; [reflexivity|lia].
Qed.

(** X10: the table grows by at most one Reading per inbound message: after
    any sequence of operations it holds no more rows than it held before
    plus the number of messages among them. *)
Theorem readings_bounded_by_messages (ops : list operation) (w : world) :
  (List.length (rows (run_all ops w))
   <= List.length (rows w) + count_messages ops)%nat.
Proof.
  revert w. induction ops as [|op ops IH]; intros w.
  - simpl. lia.
  - change (run_all (op :: ops) w) with (run_all ops (run op w)).
    specialize (IH (run op w)).
    unfold count_messages in *. simpl.
    destruct (run_store op w) as [[Hr _]|[n [lv [Hm [Hr _]]]]].
    + rewrite Hr in IH. destruct (is_message op); simpl; lia.
    + rewrite Hr, length_app in IH. rewrite Hm. simpl in *. lia.
Qed.

Lemma run_keys (op : operation) (w : world) :
  keys_below w -> NoDup (map id (rows w)) ->
  keys_below (run op w) /\ NoDup (map id (rows (run op w))).
Proof.
  unfold keys_below. intros Hk Hn.
  destruct (run_store op w) as [[Hr Hi]|[n [lv [_ [Hr Hi]]]]].
  - rewrite Hr. split; [|assumption].
    eapply Forall_impl; [|exact Hk]. intros r [k [Hid Hlt]].
    exists k. split; [exact Hid|lia].
  - rewrite Hr, Hi. split.
    + apply Forall_app. split.
      * eapply Forall_impl; [|exact Hk]. intros r [k [Hid Hlt]].
        exists k. split; [exact Hid|lia].
      * constructor; [|constructor]. exists (next_id w).
        split; [reflexivity|lia].
    + rewrite map_app. apply NoDup_app.
      * exact Hn.
      * simpl. constructor; [intros []|constructor].
      * intros a Ha [Hb|[]]. simpl in Hb. subst a.
        apply in_map_iff in Ha. destruct Ha as [r [Hid Hin]].
        rewrite Forall_forall in Hk. destruct (Hk r Hin) as [k [Hid' Hlt]].
        rewrite Hid' in Hid. inversion Hid. lia.
Qed.

(** X11: the handler never chooses a key itself, so keys stay unique: from
    a table whose keys are distinct and below the counter, any sequence of
    operations leads to a table whose keys are distinct and below the
    counter. *)
Theorem keys_stay_unique (ops : list operation) (w : world) :
  keys_below w -> NoDup (map id (rows w)) ->
  keys_below (run_all ops w) /\ NoDup (map id (rows (run_all ops w))).
Proof.
  revert w. induction ops as [|op ops IH]; intros w Hk Hn.
  - split; assumption.
  - change (run_all (op :: ops) w) with (run_all ops (run op w)).
    destruct (run_keys op w Hk Hn) as [Hk' Hn'].
    apply IH; assumption.
Qed.

End Stored.

(** ** More of the HTTP facade *)

Section Listing.
Context {L : Library}.

(** X12: [get_levels] has no handler of its own: while the store is
    unreachable the store's exception leaves the view, unlike in [home]. *)
Theorem get_levels_store_down (w : world) (cls msg : string) :
  db_down w = Some (cls, msg) ->
  get_levels w = (Raise (mk_exn DBAPIError (db_error_text cls msg)), w).
Proof.
  intros Hdown.
  unfold get_levels, with_app_context, bind, session_select_levels.
  change (failed (db_session (set_session fresh_session w))) with false.
  change (db_down (set_session fresh_session w)) with (db_down w).
  cbv iota. rewrite Hdown. unfold raise_db, raise. cbn.
  destruct w; reflexivity.
Qed.

Lemma for_each_level_dict_unstamped (levels : list WaterLevel) (w : world) :
  Exists (fun r => timestamp r = None) levels ->
  for_each level_dict levels w
  = (Raise (mk_exn AttributeError
              "'NoneType' object has no attribute 'isoformat'"), w).
Proof.
  induction levels as [|r rest IH]; intros Hex.
  - inversion Hex.
  - change (for_each level_dict (r :: rest))
      with (y <- level_dict r ;; ys <- for_each level_dict rest ;; ret (y :: ys)).
    unfold bind.
    destruct (timestamp r) as [t|] eqn:Et.
    + rewrite (level_dict_run r t w Et).
      inversion Hex as [? ? Hr|? ? Hrest]; subst; [congruence|].
      rewrite (IH Hrest). reflexivity.
    + unfold level_dict, bind. rewrite Et. reflexivity.
Qed.

(** X13: the [timestamp] column may be NULL, and [get_levels] calls
    [isoformat] on it unguarded: one stored row without a timestamp makes
    the whole listing raise [AttributeError]. *)
Theorem get_levels_unstamped_row (w : world) :
  db_down w = None ->
  Exists (fun r => timestamp r = None) (rows w) ->
  get_levels w
  = (Raise (mk_exn AttributeError
              "'NoneType' object has no attribute 'isoformat'"), w).
Proof.
  intros Hup Hex.
  assert (Hex' : Exists (fun r => timestamp r = None)
                        (order_by_timestamp_desc (rows w))).
  { eapply Permutation_Exists; [apply order_by_timestamp_desc_perm|exact Hex]. }
  unfold get_levels, with_app_context, bind, session_select_levels.
  change (failed (db_session (set_session fresh_session w))) with false.
  change (db_down (set_session fresh_session w)) with (db_down w).
  change (rows (set_session fresh_session w)) with (rows w).
  cbv iota. rewrite Hup.
  rewrite (for_each_level_dict_unstamped _ _ Hex').
  destruct w; reflexivity.
Qed.

Lemma get_levels_lists (w : world) :
  db_down w = None ->
  Forall (fun r => timestamp r <> None) (rows w) ->
  exists body,
    get_levels w = (Return (jsonify (PyList body) 200), w)
    /\ Forall2 serialized (order_by_timestamp_desc (rows w)) body.
Proof.
  intros Hup Hts.
  assert (Hts' : Forall (fun r => timestamp r <> None)
                        (order_by_timestamp_desc (rows w))).
  { rewrite Forall_forall in *. intros r Hr. apply Hts.
    eapply Permutation_in;
      [apply Permutation_sym, order_by_timestamp_desc_perm|exact Hr]. }
  destruct (for_each_level_dict _ (set_session fresh_session w) Hts')
    as [body [Hrun Hser]].
  exists body. split; [|exact Hser].
  unfold get_levels, with_app_context, bind, session_select_levels.
  change (failed (db_session (set_session fresh_session w))) with false.
  change (db_down (set_session fresh_session w)) with (db_down w).
  change (rows (set_session fresh_session w)) with (rows w).
  cbv iota. rewrite Hup, Hrun. unfold ret.
  destruct w; reflexivity.
Qed.

Lemma Forall2_in_left {A B} (R : A -> B -> Prop) (l : list A) (l' : list B) (x : A) :
  Forall2 R l l' -> In x l -> exists y, In y l' /\ R x y.
Proof.
  induction 1 as [|a b l l' Hab Hrest IH]; intros Hin; [contradiction|].
  destruct Hin as [->|Hin].
  - exists b. split; [left; reflexivity|exact Hab].
  - destruct (IH Hin) as [y [Hy Hr]]. exists y. split; [right; exact Hy|exact Hr].
Qed.

(** X14: what the bridge stores, the listing shows: after an accepted level
    message, [get_levels] answers 200 with one object more than there were
    rows, and among them the new Reading with its key, its tank, the level
    as the [Float] column holds it, and the store's time of insertion. *)
Theorem get_levels_after_message
    (message : mqtt_message) (w : world) (p0 tid text : string)
    (rest : list string) (n : Z) (d : list (string * pyval)) (lv : pyval) :
  split "/" (topic message) = p0 :: "tank" :: tid :: "water_level" :: rest ->
  py_int tid = Done n ->
  bytes_decode (payload message) = Done text ->
  json_loads text = Done (PyDict d) ->
  assoc "level" d = Some lv ->
  db_down w = None ->
  insert_error (new_level n lv) = None ->
  Forall (fun r => timestamp r <> None) (rows w) ->
  exists body,
    get_levels (snd (handle_mqtt_message message w))
    = (Return (jsonify (PyList body) 200), snd (handle_mqtt_message message w))
    /\ In (PyDict [ ("id", PyInt (next_id w));
                    ("tank_id", PyInt n);
                    ("level_cm", float_column lv);
                    ("timestamp", PyStr (isoformat (now w))) ]) body
    /\ List.length body = S (List.length (rows w)).
Proof.
  intros Hs Hi Hd Hj Hl Hup Hok Hts.
  rewrite (handle_mqtt_message_stores message w p0 tid text rest n d lv)
    by assumption.
  cbn [snd].
  match goal with |- context [get_levels ?w1] => set (w1' := w1) end.
  assert (Hup' : db_down w1' = None) by exact Hup.
  assert (Hts' : Forall (fun r => timestamp r <> None) (rows w1')).
  { unfold w1'. cbn [rows]. apply Forall_app. split; [exact Hts|].
    constructor; [discriminate|constructor]. }
  destruct (get_levels_lists w1' Hup' Hts') as [body [Hrun Hser]].
  exists body. split; [exact Hrun|]. split.
  - assert (Hin : In (stored_level w n lv) (order_by_timestamp_desc (rows w1'))).
    { eapply Permutation_in; [apply order_by_timestamp_desc_perm|].
      unfold w1'. cbn [rows]. apply in_or_app. right. left. reflexivity. }
    destruct (Forall2_in_left _ _ _ _ Hser Hin) as [y [Hy [t [Ht Hy']]]].
    cbn in Ht. inversion Ht; subst t. subst y. exact Hy.
  - rewrite <- (Forall2_length Hser).
    rewrite <- (Permutation_length (order_by_timestamp_desc_perm (rows w1'))).
    unfold w1'. cbn [rows]. rewrite length_app. simpl. lia.
Qed.

Lemma py_get_world (data : pyval) (key : string) (w : world) :
  exists r, py_get data key w = (r, w).
Proof.
  destruct data; try (eexists; reflexivity).
  unfold py_get. destruct (assoc key d); eexists; reflexivity.
Qed.

Lemma py_in_open_close (v : pyval) :
  py_in_strs v ["open"; "close"] = true ->
  v = PyStr "open" \/ v = PyStr "close".
Proof.
  destruct v; try discriminate. cbn.
  destruct (String.eqb s "open") eqn:Eo.
  - apply String.eqb_eq in Eo. subst. left. reflexivity.
  - destruct (String.eqb s "close") eqn:Ec; [|discriminate].
    apply String.eqb_eq in Ec. subst. right. reflexivity.
Qed.

Lemma wsgi_name_bound (extra : list string) (name : string) :
  existsb (String.eqb name) wsgi_globals = true ->
  existsb (String.eqb name) (extra ++ wsgi_globals) = true.
Proof. intros H. rewrite existsb_app, H. apply orb_true_r. Qed.

(** X15: in the module of [wsgi.py], whatever further names are bound
    beside its own (so whether or not [request] is imported), the body of
    [api_command_gate] never raises, whatever the request: it answers 200,
    400 or 500, it never touches the table, and it hands the broker a
    message exactly when it answers 200: then one message, on the tank's
    topic, carrying [open] or [close]; otherwise the world is as it was. *)
Theorem api_command_gate_in_answers
    (extra : list string) (request : http_request) (tank_id : Z) (w : world) :
  exists r w',
    api_command_gate_in (extra ++ wsgi_globals) request tank_id w = (Return r, w')
    /\ rows w' = rows w
    /\ ((status_code r = 200
         /\ exists c,
              (c = "open" \/ c = "close")
              /\ published w'
                 = (published w
                    ++ [(("command/gate/" ++ str_int tank_id ++ "/action")%string,
                         json_dumps (PyDict [("action", PyStr c)]))])%list)
        \/ ((status_code r = 400 \/ status_code r = 500) /\ w' = w)).
Proof.
  pose proof (wsgi_name_bound extra "jsonify" eq_refl) as Hjs.
  pose proof (wsgi_name_bound extra "send_gate_command" eq_refl) as Hs.
  set (globals := (extra ++ wsgi_globals)%list) in *.
  assert (Hfail : forall e w0,
            (load_global globals "jsonify" ;;
             ret (jsonify (PyDict [("error", PyStr (str_exn e))]) 500)) w0
            = (Return (jsonify (PyDict [("error", PyStr (str_exn e))]) 500), w0)).
  { intros e w0. unfold bind. rewrite (load_global_bound _ _ _ Hjs). reflexivity. }
  unfold api_command_gate_in, try_except.
  unfold bind at 1. unfold load_global at 1.
  destruct (existsb (String.eqb "request") globals).
  2:{ unfold raise. cbv beta iota. rewrite Hfail.
      eexists _, _. split; [reflexivity|]. split; [reflexivity|].
      right. split; [right|]; reflexivity. }
  unfold ret at 1. cbv beta iota.
  unfold bind at 1. unfold request_get_json.
  destruct (get_json request) as [data|e]; cbv beta iota.
  2:{ rewrite Hfail.
      eexists _, _. split; [reflexivity|]. split; [reflexivity|].
      right. split; [right|]; reflexivity. }
  unfold bind at 1.
  destruct (py_get_world data "action" w) as [got Hgot]. rewrite Hgot.
  destruct got as [command|e]; cbv beta iota.
  2:{ rewrite Hfail.
      eexists _, _. split; [reflexivity|]. split; [reflexivity|].
      right. split; [right|]; reflexivity. }
  destruct (py_in_strs command ["open"; "close"]) eqn:Hin.
  - unfold bind at 1. rewrite (load_global_bound _ _ _ Hs). cbv beta iota.
    unfold bind at 1. rewrite send_gate_command_run. cbv beta iota zeta.
    unfold bind at 1. rewrite (load_global_bound _ _ _ Hjs). cbv beta iota.
    unfold ret.
    eexists _, _. split; [reflexivity|]. split; [reflexivity|].
    left. split; [reflexivity|].
    destruct (py_in_open_close command Hin) as [->| ->].
    + exists "open". split; [left|]; reflexivity.
    + exists "close". split; [right|]; reflexivity.
  - unfold bind at 1. rewrite (load_global_bound _ _ _ Hjs). cbv beta iota.
    unfold ret.
    eexists _, _. split; [reflexivity|]. split; [reflexivity|].
    right. split; [left|]; reflexivity.
Qed.

End Listing.

(** ** The command topic *)

Lemma digit_not_minus (d : N) : (d < 10)%N -> digit d <> "-"%char.
Proof.
  intros Hd H. apply (f_equal N_of_ascii) in H.
  unfold digit in H. rewrite N_ascii_embedding in H by lia.
  change (N_of_ascii "-"%char) with 45%N in H. lia.
Qed.

Lemma digits_pos_head (fuel : nat) :
  forall (n : N) (acc : string),
    (fuel <> O \/ exists d r, (d < 10)%N /\ acc = String (digit d) r) ->
    exists d r, (d < 10)%N /\ digits_pos fuel n acc = String (digit d) r.
Proof.
  induction fuel as [|fuel IH]; intros n acc H.
  - destruct H as [H|H]; [contradiction|exact H].
  - cbn [digits_pos].
    assert (Hd : (n mod 10 < 10)%N) by (apply N.mod_lt; lia).
    destruct (N.ltb n 10).
    + exists (n mod 10)%N, acc. split; [exact Hd|reflexivity].
    + apply IH. right. exists (n mod 10)%N, acc. split; [exact Hd|reflexivity].
Qed.

Lemma str_N_head (n : N) :
  exists d r, (d < 10)%N /\ str_N n = String (digit d) r.
Proof. unfold str_N. apply digits_pos_head. left. discriminate. Qed.

Lemma str_N_inj (a b : N) : str_N a = str_N b -> a = b.
Proof.
  intros H. rewrite <- (str_N_value a), <- (str_N_value b), H. reflexivity.
Qed.

(** Distinct integers are written differently. *)
Lemma str_int_inj (a b : Z) : str_int a = str_int b -> a = b.
Proof.
  assert (Hzero : str_int 0 = str_N 0) by reflexivity.
  assert (Hmix : forall p x, String "-" (str_N (Npos p)) = str_N x -> False).
  { intros p x H. destruct (str_N_head x) as [d [r [Hd Hx]]].
    rewrite Hx in H. injection H as Hc Hr.
    eapply digit_not_minus; [exact Hd|]. symmetry. exact Hc. }
  destruct a as [|p|p], b as [|q|q]; intros H; try reflexivity.
  - rewrite Hzero in H. apply str_N_inj in H. discriminate.
  - rewrite Hzero in H. exfalso. eapply Hmix. symmetry. exact H.
  - rewrite Hzero in H. apply str_N_inj in H. discriminate.
  - apply str_N_inj in H. inversion H. reflexivity.
  - exfalso. eapply Hmix. symmetry. exact H.
  - rewrite Hzero in H. exfalso. eapply Hmix. exact H.
  - exfalso. eapply Hmix. exact H.
  - cbn in H. injection H as H'. apply str_N_inj in H'.
    inversion H'. reflexivity.
Qed.

Lemma length_append (a b : string) :
  String.length (a ++ b) = (String.length a + String.length b)%nat.
Proof. induction a as [|c a IH]; simpl; [reflexivity|]. rewrite IH. reflexivity. Qed.

Lemma append_cancel_r (a b s : string) : a ++ s = b ++ s -> a = b.
Proof.
  revert b. induction a as [|c a IH]; intros [|c' b] H; simpl in H.
  - reflexivity.
  - apply (f_equal String.length) in H. simpl in H.
    rewrite length_append in H. lia.
  - apply (f_equal String.length) in H. simpl in H.
    rewrite length_append in H. lia.
  - injection H as Hc Hrest. subst c'. rewrite (IH b Hrest). reflexivity.
Qed.

Lemma gate_topic_inj (t t' : Z) :
  "command/gate/" ++ str_int t ++ "/action"
  = "command/gate/" ++ str_int t' ++ "/action" ->
  t = t'.
Proof.
  intros H. cbn in H. injection H as H'.
  apply append_cancel_r in H'. apply str_int_inj. exact H'.
Qed.

Section Topic.
Context {L : Library}.

(** X16: the command topic is namespaced by the tank: a command sent for
    tank [t'] puts a message on the command topic of tank [t] only when
    [t = t']; any other message found on that topic was already there. *)
Theorem send_gate_command_own_topic (t t' : Z) (command : pyval) (w : world) :
  In ("command/gate/" ++ str_int t ++ "/action")
     (published_topics (snd (send_gate_command t' command w))) ->
  t = t' \/ In ("command/gate/" ++ str_int t ++ "/action") (published_topics w).
Proof.
  rewrite send_gate_command_run. unfold published_topics. cbn [snd published].
  rewrite map_app. intros Hin. apply in_app_or in Hin.
  destruct Hin as [Hin|[Heq|[]]].
  - right. exact Hin.
  - left. cbn [fst] in Heq. symmetry. apply gate_topic_inj. exact Heq.
Qed.

End Topic.

(** ** The further theorems at sample inputs *)

Lemma handle_mqtt_message_raises_iff_witness :
  bytes_decode (payload Sample.undecodable_message)
  = Fails "'utf-8' codec can't decode the payload: invalid byte sequence"
  /\ UnicodeDecodeError = UnicodeDecodeError.
Proof.
  apply (proj1 (handle_mqtt_message_raises_iff
                  Sample.undecodable_message Sample.empty_world
                  (mk_exn UnicodeDecodeError
                     "'utf-8' codec can't decode the payload: invalid byte sequence"))).
  reflexivity.
Defined.

Lemma handle_mqtt_message_other_topic_witness :
  handle_mqtt_message Sample.gate_status_message Sample.empty_world
  = (Return tt, Sample.empty_world).
Proof.
  apply (handle_mqtt_message_other_topic
           Sample.gate_status_message Sample.empty_world
           Sample.level_text "gate" (PyDict [("level", PyFloat (FDec 125 (-1)))])).
  - reflexivity.
  - reflexivity.
  - reflexivity.
  - left. discriminate.
Defined.

Lemma handle_mqtt_message_short_topic_witness :
  fst (handle_mqtt_message Inputs.one_segment_message Sample.empty_world) = Return tt
  /\ rows (snd (handle_mqtt_message Inputs.one_segment_message Sample.empty_world))
     = rows Sample.empty_world
  /\ stdout (snd (handle_mqtt_message Inputs.one_segment_message Sample.empty_world))
     = (stdout Sample.empty_world
        ++ [LogError (mk_exn IndexError "list index out of range");
            LogFailedPayload Sample.level_text])%list.
Proof.
  apply (handle_mqtt_message_short_topic
           Inputs.one_segment_message Sample.empty_world
           Sample.level_text (PyDict [("level", PyFloat (FDec 125 (-1)))])).
  - reflexivity.
  - reflexivity.
  - left. reflexivity.
Defined.

Lemma handle_mqtt_message_any_root_witness :
  fst (handle_mqtt_message Inputs.foreign_level_message Sample.empty_world) = Return tt
  /\ rows (snd (handle_mqtt_message Inputs.foreign_level_message Sample.empty_world))
     = (rows Sample.empty_world
        ++ [stored_level Sample.empty_world 5 (PyFloat (FDec 125 (-1)))])%list.
Proof.
  apply (handle_mqtt_message_any_root
           Inputs.foreign_level_message Sample.empty_world
           "yard" "5" Sample.level_text ["raw"] 5
           [("level", PyFloat (FDec 125 (-1)))]);
    reflexivity.
Defined.

Lemma handle_mqtt_message_not_json_logged_witness :
  fst (handle_mqtt_message Inputs.not_json_status_message Sample.empty_world)
  = Return tt
  /\ rows (snd (handle_mqtt_message Inputs.not_json_status_message Sample.empty_world))
     = rows Sample.empty_world
  /\ stdout (snd (handle_mqtt_message Inputs.not_json_status_message
                    Sample.empty_world))
     = (stdout Sample.empty_world
        ++ [LogError (mk_exn JSONDecodeError "Expecting value");
            LogFailedPayload "closed"])%list.
Proof.
  apply (handle_mqtt_message_not_json_logged
           Inputs.not_json_status_message Sample.empty_world
           "closed" "Expecting value");
    reflexivity.
Defined.

Lemma handle_mqtt_message_null_level_witness :
  fst (handle_mqtt_message Inputs.null_level_message Sample.empty_world) = Return tt
  /\ rows (snd (handle_mqtt_message Inputs.null_level_message Sample.empty_world))
     = rows Sample.empty_world
  /\ exists e,
       exn_class_of e = DBAPIError
       /\ stdout (snd (handle_mqtt_message Inputs.null_level_message
                         Sample.empty_world))
          = (stdout Sample.empty_world
             ++ [LogError e; LogFailedPayload Inputs.null_level_text])%list.
Proof.
  apply (handle_mqtt_message_null_level
           Inputs.null_level_message Sample.empty_world
           "5" Inputs.null_level_text 5 [("level", PyNone)]);
    reflexivity.
Defined.

Lemma handle_mqtt_message_twice_witness :
  rows (snd (handle_mqtt_message Sample.level_message
               (at_time 1700000060000000
                  (snd (handle_mqtt_message Sample.level_message
                          Sample.empty_world)))))
  = (rows Sample.empty_world
     ++ [ {| id := Some (next_id Sample.empty_world); tank_id := PyInt 5;
             level_cm := float_column (PyFloat (FDec 125 (-1)));
             timestamp := Some (now Sample.empty_world) |};
          {| id := Some (next_id Sample.empty_world + 1); tank_id := PyInt 5;
             level_cm := float_column (PyFloat (FDec 125 (-1)));
             timestamp := Some 1700000060000000 |} ])%list.
Proof.
  apply (handle_mqtt_message_twice
           Sample.level_message Sample.empty_world
           "sensor" "5" Sample.level_text [] 5 1700000060000000
           [("level", PyFloat (FDec 125 (-1)))]);
    reflexivity.
Defined.

Lemma keys_stay_unique_witness :
  let ops := [ OnMessage Sample.level_message; GetLevels;
               OnMessage Sample.level_message; OnConnect 0 ] in
  keys_below (run_all ops Sample.empty_world)
  /\ NoDup (map id (rows (run_all ops Sample.empty_world))).
Proof.
  apply (keys_stay_unique
           [ OnMessage Sample.level_message; GetLevels;
             OnMessage Sample.level_message; OnConnect 0 ]
           Sample.empty_world).
  - constructor.
  - constructor.
Defined.

Lemma get_levels_store_down_witness :
  get_levels Sample.down_world
  = (Raise (mk_exn DBAPIError
              (db_error_text "psycopg2.OperationalError" "connection refused")),
     Sample.down_world).
Proof.
  apply (get_levels_store_down Sample.down_world).
  reflexivity.
Defined.

Lemma get_levels_unstamped_row_witness :
  get_levels Inputs.unstamped_world
  = (Raise (mk_exn AttributeError
              "'NoneType' object has no attribute 'isoformat'"),
     Inputs.unstamped_world).
Proof.
  apply (get_levels_unstamped_row Inputs.unstamped_world).
  - reflexivity.
  - simpl. apply Exists_cons_tl. apply Exists_cons_hd. reflexivity.
Defined.

Lemma get_levels_after_message_witness :
  exists body,
    get_levels (snd (handle_mqtt_message Sample.level_message Sample.stocked_world))
    = (Return (jsonify (PyList body) 200),
       snd (handle_mqtt_message Sample.level_message Sample.stocked_world))
    /\ In (PyDict [ ("id", PyInt (next_id Sample.stocked_world));
                    ("tank_id", PyInt 5);
                    ("level_cm", PyFloat (FDec 125 (-1)));
                    ("timestamp", PyStr (isoformat (now Sample.stocked_world))) ])
          body
    /\ List.length body = S (List.length (rows Sample.stocked_world)).
Proof.
  refine (get_levels_after_message
            Sample.level_message Sample.stocked_world
            "sensor" "5" Sample.level_text [] 5
            [("level", PyFloat (FDec 125 (-1)))] (PyFloat (FDec 125 (-1)))
            eq_refl eq_refl eq_refl eq_refl eq_refl eq_refl eq_refl _).
  simpl. repeat constructor; discriminate.
Defined.

Lemma send_gate_command_own_topic_witness :
  5 = 5
  \/ In ("command/gate/" ++ str_int 5 ++ "/action")%string
        (published_topics Sample.empty_world).
Proof.
  apply (send_gate_command_own_topic 5 5 (PyStr "open") Sample.empty_world).
  left. reflexivity.
Defined.
